(** * vibecheck: the AI chat route and the page-protection middleware

    A shallow embedding of [src/app/api/ai/chat/route.ts] and
    [src/middleware.ts].  The handlers are written in a small monad that
    records the observable calls (console output, session lookups, the
    model call) and threads JavaScript exceptions, so that the statements
    about "no model call" and "no session lookup" are statements about the
    recorded trace. *)

From Stdlib Require Import String Ascii List Bool Arith ZArith Lia.
Import ListNotations.
Local Open Scope string_scope.

(* ===================================================================== *)
(** ** JavaScript strings *)
(* ===================================================================== *)

Module Str.

(** The double quote character, which a template literal may contain. *)
Definition dq : string := String "034"%char EmptyString.

(** A line feed, as it appears inside a multi-line template literal. *)
Definition nl : string := String "010"%char EmptyString.

(** A template literal: its pieces and interpolations, concatenated. *)
Definition template (parts : list string) : string :=
  fold_right append EmptyString parts.

(** Lines of a multi-line literal, joined by line feeds. *)
Fixpoint lines (ls : list string) : string :=
  match ls with
  | [] => EmptyString
  | [l] => l
  | l :: rest => l ++ nl ++ lines rest
  end.

(** [strip_prefix p s] is [Some r] when [s = p ++ r]. *)
Fixpoint strip_prefix (p s : string) : option string :=
  match p with
  | EmptyString => Some s
  | String c p' =>
      match s with
      | EmptyString => None
      | String d s' => if Ascii.eqb c d then strip_prefix p' s' else None
      end
  end.

(** [String.prototype.startsWith]. *)
Definition startsWith (s p : string) : bool :=
  match strip_prefix p s with Some _ => true | None => false end.

(** [String.prototype.includes], by trying every position. *)
Fixpoint includesb (hay needle : string) : bool :=
  startsWith hay needle ||
  match hay with
  | EmptyString => false
  | String _ hay' => includesb hay' needle
  end.

(** The propositional reading of "[hay] contains [needle] verbatim". *)
Definition includes (hay needle : string) : Prop :=
  exists before after, hay = before ++ needle ++ after.

(** [s] ends with [suffix]. *)
Definition endsWith (s suffix : string) : Prop :=
  exists before, s = before ++ suffix.

End Str.

(* ===================================================================== *)
(** ** JSON values, as [req.json()] produces them *)
(* ===================================================================== *)

Module Json.

#[warnings="-register-all"]
Inductive json : Type :=
| JNull
| JBool (b : bool)
| JNum (z : Z)
| JStr (s : string)
| JArr (items : list json)
| JObj (fields : list (string * json)).

(** A JavaScript value that may also be [undefined]. *)
Definition jsval : Type := option json.
Definition undefined : jsval := None.

(** [typeof v === "string"]. *)
Definition is_string (v : jsval) : bool :=
  match v with
  | Some (JStr _) => true
  | _ => false
  end.

(** Own-property lookup in an object's field list. *)
Fixpoint get_field (k : string) (fields : list (string * json)) : jsval :=
  match fields with
  | [] => undefined
  | (k', v) :: rest => if String.eqb k k' then Some v else get_field k rest
  end.

(** JavaScript truthiness, as [!x] and [x || y] test it. *)
Definition truthy (v : jsval) : bool :=
  match v with
  | None => false
  | Some JNull => false
  | Some (JBool b) => b
  | Some (JNum z) => negb (Z.eqb z 0)
  | Some (JStr s) => negb (String.eqb s EmptyString)
  | Some (JArr _) => true
  | Some (JObj _) => true
  end.

End Json.

(* ===================================================================== *)
(** ** Effects: a trace of observable calls, and exceptions *)
(* ===================================================================== *)

Module Eff.

(** [M E X A]: a computation that records events of type [E] and either
    throws an [X] or returns an [A].  The trace is kept also when the
    computation throws. *)
Definition M (E X A : Type) : Type := (list E * (X + A))%type.

Definition ret {E X A} (a : A) : M E X A := ([], inr a).

Definition bind {E X A B} (m : M E X A) (f : A -> M E X B) : M E X B :=
  match m with
  | (t, inl e) => (t, inl e)
  | (t, inr a) => let (t', r) := f a in ((t ++ t')%list, r)
  end.

Definition throw {E X A} (e : X) : M E X A := ([], inl e).

Definition emit {E X} (ev : E) : M E X unit := ([ev], inr tt).

(** [try { m } catch (error) { h error }]. *)
Definition try_catch {E X A} (m : M E X A) (h : X -> M E X A) : M E X A :=
  match m with
  | (t, inl e) => let (t', r) := h e in ((t ++ t')%list, r)
  | (t, inr a) => (t, inr a)
  end.

Definition trace {E X A} (m : M E X A) : list E := fst m.
Definition result {E X A} (m : M E X A) : X + A := snd m.

(** What a call into a library outside this repository did. *)
Inductive outcome (X A : Type) : Type :=
| Returned (a : A)
| Threw (e : X).
Arguments Returned {X A} a.
Arguments Threw {X A} e.

Definition of_outcome {E X A} (o : outcome X A) : M E X A :=
  match o with
  | Returned a => ret a
  | Threw e => throw e
  end.

End Eff.

Declare Scope eff_scope.
Delimit Scope eff_scope with eff.
Notation "x <- m ;; k" := (Eff.bind m (fun x => k))
  (at level 61, m at next level, right associativity) : eff_scope.
Notation "m ;;; k" := (Eff.bind m (fun _ => k))
  (at level 61, right associativity) : eff_scope.

(* ===================================================================== *)
(** ** The part of zod the route uses *)
(* ===================================================================== *)

Module Zod.
Import Json.

(** A step of an issue's path: an object key or an array index. *)
Inductive pathseg : Type :=
| Key (k : string)
| Idx (i : nat).

(** One entry of [ZodError.errors]. *)
Record ZodIssue : Type := mkIssue {
  code : string;
  expected : string;
  received : string;
  ipath : list pathseg;
  message : string
}.

(** zod's name for the run-time type of a value. *)
Definition parsedType (v : jsval) : string :=
  match v with
  | None => "undefined"
  | Some JNull => "null"
  | Some (JBool _) => "boolean"
  | Some (JNum _) => "number"
  | Some (JStr _) => "string"
  | Some (JArr _) => "array"
  | Some (JObj _) => "object"
  end.

Definition invalid_type (want : string) (v : jsval) (p : list pathseg)
  : ZodIssue :=
  {| code := "invalid_type";
     expected := want;
     received := parsedType v;
     ipath := p;
     message :=
       match v with
       | None => "Required"
       | Some _ => "Expected " ++ want ++ ", received " ++ parsedType v
       end |}.

(** The result of parsing: every issue found, or the parsed value. *)
Definition zres (A : Type) : Type := (list ZodIssue + A)%type.

(** A schema parses the value found at a path. *)
Definition schema (A : Type) : Type := list pathseg -> jsval -> zres A.

(** Issues of independent fields are all collected. *)
Definition ap {A B} (f : zres (A -> B)) (x : zres A) : zres B :=
  match f, x with
  | inr g, inr a => inr (g a)
  | inl i, inr _ => inl i
  | inr _, inl j => inl j
  | inl i, inl j => inl (i ++ j)%list
  end.

Definition z_any : schema jsval := fun _ v => inr v.

Definition z_string : schema string := fun p v =>
  match v with
  | Some (JStr s) => inr s
  | _ => inl [invalid_type "string" v p]
  end.

Definition z_number : schema Z := fun p v =>
  match v with
  | Some (JNum z) => inr z
  | _ => inl [invalid_type "number" v p]
  end.

Fixpoint parse_items {A} (elem : schema A) (p : list pathseg) (i : nat)
  (items : list json) : zres (list A) :=
  match items with
  | [] => inr []
  | x :: rest =>
      ap (ap (inr cons) (elem (p ++ [Idx i])%list (Some x)))
         (parse_items elem p (S i) rest)
  end.

Definition z_array {A} (elem : schema A) : schema (list A) := fun p v =>
  match v with
  | Some (JArr items) => parse_items elem p 0 items
  | _ => inl [invalid_type "array" v p]
  end.

(** [.optional()]: [undefined] is accepted as it is. *)
Definition z_optional {A} (s : schema A) : schema (option A) := fun p v =>
  match v with
  | None => inr None
  | Some _ => ap (inr Some) (s p v)
  end.

(** [.default(d)]: [undefined] is replaced by [d]. *)
Definition z_default {A} (d : A) (s : schema A) : schema A := fun p v =>
  match v with
  | None => inr d
  | Some _ => s p v
  end.

(** [.describe(text)] only attaches documentation. *)
Definition z_describe {A} (text : string) (s : schema A) : schema A := s.

(** The value of key [k] of the object being parsed, parsed by [s]. *)
Definition field {A} (k : string) (s : schema A)
  (p : list pathseg) (fields : list (string * json)) : zres A :=
  s (p ++ [Key k])%list (get_field k fields).

(** [z.object(shape)]: the input must be an object; unknown keys are
    dropped, and every key of the shape is parsed. *)
Definition z_object {A}
  (shape : list pathseg -> list (string * json) -> zres A) : schema A :=
  fun p v =>
    match v with
    | Some (JObj fields) => shape p fields
    | _ => inl [invalid_type "object" v p]
    end.

(** [schema.parse(value)] starts at the empty path. *)
Definition parse {A} (s : schema A) (v : json) : zres A := s [] (Some v).

End Zod.

Notation "f <*> x" := (Zod.ap f x) (at level 52, left associativity).

(* ===================================================================== *)
(** ** [src/app/api/ai/chat/route.ts] *)
(* ===================================================================== *)

Module Route.
Import Json Eff.
Local Open Scope eff_scope.

(** The JavaScript exceptions that can reach the handler's [catch]. *)
Inductive exn : Type :=
| TypeError (msg : string)
| SyntaxError (msg : string)
| ZodError (errors : list Zod.ZodIssue)
| OtherError (msg : string).

(** [error instanceof z.ZodError]. *)
Definition instanceof_ZodError (e : exn) : option (list Zod.ZodIssue) :=
  match e with
  | ZodError errors => Some errors
  | _ => None
  end.

Definition Headers : Type := list (string * string).
Definition AbortSignal : Type := nat.

Record User : Type := { user_id : string }.

(** What [auth.api.getSession] resolves to, when it is not [null]. *)
Record Session : Type := { user : option User }.

(** [session?.user], as a truth value. *)
Definition session_user (session : option Session) : option User :=
  match session with
  | None => None
  | Some s => user s
  end.

Record Request : Type := {
  headers : Headers;
  body : string;
  signal : AbortSignal
}.

(** An argument of [console.log] or [console.error]. *)
Inductive logarg : Type :=
| LStr (s : string)
| LVal (v : jsval)
| LError (e : exn)
| LIssues (errors : list Zod.ZodIssue).

(** Calls that leave the handler, other than the model call. *)
Inductive io : Type :=
| ConsoleLog (args : list logarg)
| ConsoleError (args : list logarg)
| AuthGetSession (h : Headers)
| ReqJson (raw : string).

(** *** The request schema (lines 12-20) *)

Module CurrentFile.
Record t : Type := mk { path : string; content : string }.
End CurrentFile.

Record ChatRequest : Type := {
  messages : list jsval;
  currentFile : option CurrentFile.t
}.

Definition requestSchema : Zod.schema ChatRequest :=
  Zod.z_object (fun p o =>
    inr Build_ChatRequest
      <*> Zod.field "messages" (Zod.z_array Zod.z_any) p o
      <*> Zod.field "currentFile"
            (Zod.z_optional
               (Zod.z_object (fun p' o' =>
                  inr CurrentFile.mk
                    <*> Zod.field "path" Zod.z_string p' o'
                    <*> Zod.field "content" Zod.z_string p' o')))
            p o).

(** [requestSchema.parse(body)]: the parsed request, or a thrown
    [ZodError] carrying every issue. *)
Definition requestSchema_parse {E} (v : json) : M E exn ChatRequest :=
  match Zod.parse requestSchema v with
  | inl errors => throw (ZodError errors)
  | inr r => ret r
  end.

(** *** The tool registry (lines 23-107) *)

Module PathInput.
Record t : Type := mk { path : string }.
End PathInput.

Module CreateFileInput.
Record t : Type := mk { path : string; content : string }.
End CreateFileInput.

Module RunCommandInput.
Record t : Type := mk {
  command : string;
  cwd : option string;
  outputLimit : option Z
}.
End RunCommandInput.

Module PatchInput.
Record t : Type := mk {
  path : string;
  diff : string;
  explanation : string
}.
End PatchInput.

Module PatchProposal.
Record t : Type := mk {
  path : string;
  diff : string;
  explanation : string;
  status : string;
  message : string
}.
End PatchProposal.

(** What [tool({...})] is given: a description, an input schema, and
    optionally an output schema and a server-side [execute]. *)
Record Tool : Type := tool {
  description : string;
  input : Type;
  inputSchema : Zod.schema input;
  output : Type;
  outputSchema : option (Zod.schema output);
  execute : option (input -> M io exn output)
}.

Definition listFiles : Tool :=
  tool "List files in a directory"
    PathInput.t
    (Zod.z_object (fun p o =>
       inr PathInput.mk
         <*> Zod.field "path"
               (Zod.z_describe "The path to list files from" Zod.z_string)
               p o))
    jsval None None.

Definition readFile : Tool :=
  tool "Read a file"
    PathInput.t
    (Zod.z_object (fun p o =>
       inr PathInput.mk
         <*> Zod.field "path"
               (Zod.z_describe "The path to read the file from" Zod.z_string)
               p o))
    jsval None None.

Definition createFile : Tool :=
  tool "Create a file"
    CreateFileInput.t
    (Zod.z_object (fun p o =>
       inr CreateFileInput.mk
         <*> Zod.field "path"
               (Zod.z_describe "The path to create the file at" Zod.z_string)
               p o
         <*> Zod.field "content"
               (Zod.z_describe "The content of the file" Zod.z_string)
               p o))
    jsval None None.

Definition createFolder : Tool :=
  tool "Create a folder"
    PathInput.t
    (Zod.z_object (fun p o =>
       inr PathInput.mk
         <*> Zod.field "path"
               (Zod.z_describe "The path to create the folder at" Zod.z_string)
               p o))
    jsval None None.

Definition runCommand : Tool :=
  tool "Run a command"
    RunCommandInput.t
    (Zod.z_object (fun p o =>
       inr RunCommandInput.mk
         <*> Zod.field "command"
               (Zod.z_describe "The command to run" Zod.z_string) p o
         <*> Zod.field "cwd"
               (Zod.z_optional
                  (Zod.z_describe "The working directory to run the command in"
                     Zod.z_string))
               p o
         <*> Zod.field "outputLimit"
               (Zod.z_optional
                  (Zod.z_describe
                     "The maximum number of characters to return in the output"
                     (Zod.z_default 1000%Z Zod.z_number)))
               p o))
    string
    (Some (Zod.z_describe
             "The output of the command (sliced to the outputLimit)"
             Zod.z_string))
    None.

Definition editFileWithPatch_description : string :=
  Str.lines
    [ "Edit a file by applying a unified diff patch. Use this tool when you want to suggest changes to code files. ";
      "    ";
      "The patch should be in unified diff format with:";
      "- File paths (--- and +++)";
      "- Hunk headers (@@ -start,count +start,count @@)";
      "- Context lines (starting with space)";
      "- Removed lines (starting with -)";
      "- Added lines (starting with +)";
      "";
      "Include 3+ lines of context before and after changes for accurate patching." ].

Definition editFileWithPatch_diff_description : string :=
  Str.lines
    [ "The unified diff patch to apply. Example:";
      "--- /src/app/page.tsx";
      "+++ /src/app/page.tsx";
      "@@ -1,5 +1,5 @@";
      " export default function Home() {";
      "-  return <div>Hello</div>";
      "+  return <div>Hello World</div>";
      " }";
      "" ].

(** The executor of [editFileWithPatch] (lines 95-105): it returns the
    edit information and leaves applying it to the client. *)
Definition editFileWithPatch_execute (i : PatchInput.t)
  : M io exn PatchProposal.t :=
  let path := PatchInput.path i in
  let diff := PatchInput.diff i in
  let explanation := PatchInput.explanation i in
  ret {| PatchProposal.path := path;
         PatchProposal.diff := diff;
         PatchProposal.explanation := explanation;
         PatchProposal.status := "pending_approval";
         PatchProposal.message :=
           Str.template ["Suggested edit to "; path; ": "; explanation] |}.

Definition editFileWithPatch : Tool :=
  tool editFileWithPatch_description
    PatchInput.t
    (Zod.z_object (fun p o =>
       inr PatchInput.mk
         <*> Zod.field "path"
               (Zod.z_describe
                  "The file path to edit (e.g., /src/app/page.tsx)"
                  Zod.z_string)
               p o
         <*> Zod.field "diff"
               (Zod.z_describe editFileWithPatch_diff_description Zod.z_string)
               p o
         <*> Zod.field "explanation"
               (Zod.z_describe
                  "Brief explanation of what changes are being made and why"
                  Zod.z_string)
               p o))
    PatchProposal.t
    None
    (Some editFileWithPatch_execute).

(** The [tools] object, its keys in source order. *)
Definition tools : list (string * Tool) :=
  [ ("listFiles", listFiles);
    ("readFile", readFile);
    ("createFile", createFile);
    ("createFolder", createFolder);
    ("runCommand", runCommand);
    ("editFileWithPatch", editFileWithPatch) ].

Definition tool_names (ts : list (string * Tool)) : list string :=
  map fst ts.

(** A tool carries a server-side executor when [execute] is set. *)
Definition has_executor (t : Tool) : bool :=
  match execute t with Some _ => true | None => false end.

Definition maxDuration : nat := 30.

(** *** The system prompt (lines 140-169) *)

Definition systemPrompt (currentFile : option CurrentFile.t) : string :=
  match currentFile with
  | Some currentFile =>
      let path := CurrentFile.path currentFile in
      let content := CurrentFile.content currentFile in
      Str.lines
        [ "You are an AI coding assistant integrated into a code editor, similar to Cursor AI.";
          "";
          "Current file being edited:";
          Str.template ["- Path: "; path];
          "- Content:";
          "```";
          content;
          "```";
          "";
          "When suggesting code changes, you MUST use the editFileWithPatch tool:";
          "1. Call editFileWithPatch with the file path, diff patch, and explanation";
          "2. The diff should be in unified diff format with:";
          "   - File paths (--- and +++)";
          "   - Hunk headers (@@ -start,count +start,count @@)";
          "   - Context lines (starting with space)";
          "   - Removed lines (starting with -)";
          "   - Added lines (starting with +)";
          "3. Include at least 3 lines of context before and after changes";
          "4. Provide a clear explanation of what you're changing and why";
          "";
          "Example tool call:";
          "{";
          Str.template
            ["  "; Str.dq; "path"; Str.dq; ": "; Str.dq; path; Str.dq; ","];
          Str.template
            ["  "; Str.dq; "diff"; Str.dq; ": "; Str.dq;
             "--- "; path; "\n+++ "; path;
             "\n@@ -10,3 +10,3 @@\n function test() {\n-  return false;\n+  return true;\n }";
             Str.dq; ","];
          Str.template
            ["  "; Str.dq; "explanation"; Str.dq; ": "; Str.dq;
             "Changed return value from false to true to fix the logic";
             Str.dq];
          "}";
          "";
          "The user can then accept or reject your suggested changes in the UI." ]
  | None =>
      "You are an AI coding assistant. Help the user with their coding questions. When you need to suggest code changes, use the editFileWithPatch tool."
  end.

(** *** The handler (lines 112-199) *)

Definition UIMessage : Type := jsval.
Definition ModelMessage : Type := json.

(** The argument of [streamText]. *)
Record StreamTextCall : Type := {
  model : string;
  system : string;
  model_messages : list ModelMessage;
  call_tools : list (string * Tool);
  abortSignal : AbortSignal
}.

(** Everything the handler is observed to do. *)
Inductive event : Type :=
| Io (e : io)
| StreamText (call : StreamTextCall).

Definition is_model_call (ev : event) : bool :=
  match ev with
  | StreamText _ => true
  | Io _ => false
  end.

(** How often the streaming model client was invoked. *)
Definition model_calls (t : list event) : nat :=
  length (filter is_model_call t).

Inductive Body : Type :=
| BText (s : string)
| BJsonStringify (v : json)
| BUIMessageStream (call : StreamTextCall).

Module Response.
Record t : Type := mk {
  body : Body;
  status : nat;
  headers : list (string * string)
}.
End Response.

(** The libraries the handler calls into. *)
Record Env : Type := {
  auth_api_getSession : Headers -> outcome exn (option Session);
  JSON_parse : string -> option json;
  convertToModelMessages : list UIMessage -> outcome exn (list ModelMessage)
}.

Definition console_log (args : list logarg) : M event exn unit :=
  emit (Io (ConsoleLog args)).

Definition console_error (args : list logarg) : M event exn unit :=
  emit (Io (ConsoleError args)).

(** [await auth.api.getSession({ headers })]. *)
Definition getSession (env : Env) (h : Headers)
  : M event exn (option Session) :=
  emit (Io (AuthGetSession h)) ;;; of_outcome (auth_api_getSession env h).

(** [await req.json()]: a body that is not JSON throws a [SyntaxError]. *)
Definition req_json (env : Env) (req : Request) : M event exn json :=
  emit (Io (ReqJson (body req))) ;;;
  match JSON_parse env (body req) with
  | Some v => ret v
  | None => throw (SyntaxError "Unexpected token in JSON")
  end.

(** [body.messages]: reading a property of [null] throws; arrays and
    primitives have no such property. *)
Definition get_messages (b : json) : M event exn jsval :=
  match b with
  | JNull =>
      throw (TypeError "Cannot read properties of null (reading 'messages')")
  | JObj o => ret (get_field "messages" o)
  | _ => ret undefined
  end.

(** [v?.length]. *)
Definition optional_length (v : jsval) : jsval :=
  match v with
  | None => undefined
  | Some JNull => undefined
  | Some (JArr items) => Some (JNum (Z.of_nat (length items)))
  | Some (JStr s) => Some (JNum (Z.of_nat (String.length s)))
  | Some (JObj o) => get_field "length" o
  | Some _ => undefined
  end.

(** [currentFile?.path]. *)
Definition optional_path (c : option CurrentFile.t) : jsval :=
  option_map (fun c => JStr (CurrentFile.path c)) c.

Definition streamText (call : StreamTextCall) : M event exn StreamTextCall :=
  emit (StreamText call) ;;; ret call.

Definition toUIMessageStreamResponse (result : StreamTextCall) : Response.t :=
  Response.mk (BUIMessageStream result) 200 [].

Definition pathseg_json (s : Zod.pathseg) : json :=
  match s with
  | Zod.Key k => JStr k
  | Zod.Idx i => JNum (Z.of_nat i)
  end.

Definition issue_json (i : Zod.ZodIssue) : json :=
  JObj [ ("code", JStr (Zod.code i));
         ("expected", JStr (Zod.expected i));
         ("received", JStr (Zod.received i));
         ("path", JArr (map pathseg_json (Zod.ipath i)));
         ("message", JStr (Zod.message i)) ].

(** The object [{ error: "Invalid request", details: error.errors }]. *)
Definition invalid_request (errors : list Zod.ZodIssue) : json :=
  JObj [ ("error", JStr "Invalid request");
         ("details", JArr (map issue_json errors)) ].

Definition POST (env : Env) (req : Request) : M event exn Response.t :=
  try_catch
    (session <- getSession env (headers req) ;;
     match session_user session with
     | None =>
         console_log [LStr "[API] Unauthorized request"] ;;;
         ret (Response.mk (BText "Unauthorized") 401 [])
     | Some _ =>
         body <- req_json env req ;;
         len <- get_messages body ;;
         console_log [ LStr "[API] Received request with";
                       LVal (optional_length len);
                       LStr "messages" ] ;;;
         parsed <- requestSchema_parse body ;;
         let messages := messages parsed in
         let currentFile := currentFile parsed in
         console_log [ LStr "[API] Parsed successfully. Current file:";
                       LVal (optional_path currentFile) ] ;;;
         let systemPrompt := systemPrompt currentFile in
         console_log [LStr "[API] Converting messages for model..."] ;;;
         converted <- of_outcome (convertToModelMessages env messages) ;;
         result <- streamText
                     {| model := "anthropic/claude-sonnet-4.5";
                        system := systemPrompt;
                        model_messages := converted;
                        call_tools := tools;
                        abortSignal := signal req |} ;;
         console_log
           [LStr "[API] Stream created, returning UI message stream response"] ;;;
         ret (toUIMessageStreamResponse result)
     end)
    (fun error =>
       console_error [LStr "[API] Chat error:"; LError error] ;;;
       match instanceof_ZodError error with
       | Some errors =>
           console_error [LStr "[API] Validation error:"; LIssues errors] ;;;
           ret (Response.mk
                  (BJsonStringify (invalid_request errors))
                  400
                  [("Content-Type", "application/json")])
       | None =>
           ret (Response.mk (BText "Internal Server Error") 500 [])
       end).

(** A body that lacks [messages]: no value of that name can be read
    from it. *)
Definition missing_messages (b : json) : Prop :=
  match b with
  | JObj o => get_field "messages" o = undefined
  | _ => True
  end.

(** A body whose [currentFile] is an object without a string [path] or
    without a string [content]. *)
Definition malformed_currentFile (b : json) : Prop :=
  exists o c,
    b = JObj o /\ get_field "currentFile" o = Some (JObj c) /\
    (is_string (get_field "path" c) = false \/
     is_string (get_field "content" c) = false).

(** The call handed to the model, when there is one. *)
Definition model_call_of (t : list event) : option StreamTextCall :=
  match filter is_model_call t with
  | StreamText c :: _ => Some c
  | _ => None
  end.

End Route.

(* ===================================================================== *)
(** ** [src/middleware.ts] *)
(* ===================================================================== *)

Module Middleware.
Import Json Eff.
Local Open Scope eff_scope.

(** A parsed URL: origin, path and the query as [searchParams] holds it. *)
Record URL : Type := {
  origin : string;
  pathname : string;
  searchParams : list (string * string)
}.

(** [new URL(path, base)] for a [path] that starts with a slash: the
    origin of [base], the given path, no query. *)
Definition new_URL (path : string) (base : URL) : URL :=
  {| origin := origin base; pathname := path; searchParams := [] |}.

(** [URLSearchParams.prototype.set]: the first entry of that name takes
    the value and later ones are removed; without one, it is appended. *)
Fixpoint searchParams_set (name value : string)
  (params : list (string * string)) : list (string * string) :=
  match params with
  | [] => [(name, value)]
  | (k, v) :: rest =>
      if String.eqb k name
      then (name, value)
             :: filter (fun kv => negb (String.eqb (fst kv) name)) rest
      else (k, v) :: searchParams_set name value rest
  end.

Record NextRequest : Type := {
  nextUrl : URL;
  url : URL;
  headers : list (string * string)
}.

(** [headers.get(name)], [None] for [null]. *)
Fixpoint headers_get (name : string) (h : list (string * string))
  : option string :=
  match h with
  | [] => None
  | (k, v) :: rest => if String.eqb k name then Some v else headers_get name rest
  end.

(** [x || empty] on a string or [null]: the empty string for [null]. *)
Definition or_empty (x : option string) : string :=
  match x with
  | Some s => s
  | None => EmptyString
  end.

(** What [betterFetch] resolves to. *)
Record FetchResult : Type := { data : jsval; error : jsval }.

(** [betterFetch(path, { baseURL, headers })]. *)
Record Env : Type := {
  betterFetch : string -> string -> list (string * string) -> FetchResult
}.

Inductive event : Type :=
| BetterFetch (path baseURL : string) (h : list (string * string)).

(** Nothing the middleware calls is modelled as throwing. *)
Definition exn : Type := Empty_set.

Inductive NextResponse : Type :=
| next
| redirect (target : URL).

Definition fetch_session (env : Env) (path baseURL : string)
  (h : list (string * string)) : M event exn FetchResult :=
  emit (BetterFetch path baseURL h) ;;; ret (betterFetch env path baseURL h).

(** Lines 9-13: authentication pages and API routes. *)
Definition is_public (pathname : string) : bool :=
  Str.startsWith pathname "/auth/login" ||
  Str.startsWith pathname "/auth/signup" ||
  Str.startsWith pathname "/api/".

Definition middleware (env : Env) (request : NextRequest)
  : M event exn NextResponse :=
  let pathname := pathname (nextUrl request) in
  if is_public pathname then ret next
  else
    session <- fetch_session env "/api/auth/get-session"
                 (origin (nextUrl request))
                 [("cookie", or_empty (headers_get "cookie" (headers request)))] ;;
    if negb (truthy (data session)) then
      let loginUrl := new_URL "/auth/login" (url request) in
      let loginUrl :=
        {| origin := origin loginUrl;
           pathname := Middleware.pathname loginUrl;
           searchParams :=
             searchParams_set "redirect" pathname (searchParams loginUrl) |} in
      ret (redirect loginUrl)
    else ret next.

(** *** [config.matcher] (lines 35-46) *)

(** The regular-expression constructs the matcher uses. *)
Inductive regex : Type :=
| Lit (s : string)
| Dot
| DotStar
| Seq (r1 r2 : regex)
| Alt (r1 r2 : regex)
| NegLookahead (r : regex)
| EndOfInput.

(** [.] matches any character but a line terminator. *)
Definition dot_char (c : ascii) : bool :=
  negb (Ascii.eqb c "010"%char || Ascii.eqb c "013"%char).

(** [.*] followed by [k]. *)
Fixpoint dot_star (k : string -> bool) (s : string) : bool :=
  k s ||
  match s with
  | EmptyString => false
  | String c rest => dot_char c && dot_star k rest
  end.

(** Backtracking match of [r] at the front of [s], the rest of the input
    going to the continuation [k]. *)
Fixpoint matches (r : regex) (s : string) (k : string -> bool) : bool :=
  match r with
  | Lit p =>
      match Str.strip_prefix p s with
      | Some rest => k rest
      | None => false
      end
  | Dot =>
      match s with
      | EmptyString => false
      | String c rest => dot_char c && k rest
      end
  | DotStar => dot_star k s
  | Seq r1 r2 => matches r1 s (fun rest => matches r2 rest k)
  | Alt r1 r2 => matches r1 s k || matches r2 s k
  | NegLookahead r' => negb (matches r' s (fun _ => true)) && k s
  | EndOfInput =>
      match s with
      | EmptyString => k s
      | String _ _ => false
      end
  end.

(** [(?:svg|png|jpg|jpeg|gif|webp)]. *)
Definition image_extension : regex :=
  Alt (Lit "svg") (Alt (Lit "png") (Alt (Lit "jpg")
    (Alt (Lit "jpeg") (Alt (Lit "gif") (Lit "webp"))))).

(** [(?!_next/static|_next/image|favicon.ico|.*\.(?:...)$)]. *)
Definition excluded : regex :=
  Alt (Lit "_next/static")
    (Alt (Lit "_next/image")
       (Alt (Seq (Lit "favicon") (Seq Dot (Lit "ico")))
          (Seq DotStar (Seq (Lit ".") (Seq image_extension EndOfInput))))).

(** The whole pattern: a slash, the negative lookahead, then any rest. *)
Definition matcher : regex :=
  Seq (Lit "/") (Seq (NegLookahead excluded) DotStar).

Definition is_empty (s : string) : bool :=
  match s with
  | EmptyString => true
  | String _ _ => false
  end.

(** The framework runs the middleware on a path that the matcher
    matches from its first to its last character. *)
Definition config_matches (pathname : string) : bool :=
  matches matcher pathname is_empty.

(** A request as the framework routes it: [None] when the middleware is
    not run at all. *)
Definition handle (env : Env) (request : NextRequest)
  : M event exn (option NextResponse) :=
  if config_matches (pathname (nextUrl request))
  then r <- middleware env request ;; ret (Some r)
  else ret None.

(** Every character of [s] is one that [.] matches. *)
Fixpoint all_dot (s : string) : bool :=
  match s with
  | EmptyString => true
  | String c rest => dot_char c && all_dot rest
  end.

Definition image_extensions : list string :=
  ["svg"; "png"; "jpg"; "jpeg"; "gif"; "webp"].

(** The paths the comment above the matcher lists as left alone: the
    framework's static files, and any path ending in an image extension. *)
Definition static_asset (pathname : string) : Prop :=
  Str.startsWith pathname "/_next/static" = true \/
  Str.startsWith pathname "/_next/image" = true \/
  Str.startsWith pathname "/favicon.ico" = true \/
  exists ext, In ext image_extensions /\ Str.endsWith pathname ("." ++ ext).

Definition is_redirect (r : option NextResponse) : bool :=
  match r with
  | Some (redirect _) => true
  | _ => false
  end.

(** The response of a run; the middleware cannot throw. *)
Definition response_of {A} (m : M event exn A) : A :=
  match result m with
  | inr a => a
  | inl e => match e with end
  end.

End Middleware.

(* ===================================================================== *)
(** ** A concrete environment, for running the handlers *)
(* ===================================================================== *)

Module Sample.
Import Json Eff.

Definition alice : Route.Session :=
  {| Route.user := Some {| Route.user_id := "alice" |} |}.

(** A session store that knows one cookie. *)
Definition getSession (h : Route.Headers)
  : outcome Route.exn (option Route.Session) :=
  match Middleware.headers_get "cookie" h with
  | Some c => if String.eqb c "session=alice"
              then Returned (Some alice) else Returned None
  | None => Returned None
  end.

Definition q (s : string) : string := Str.dq ++ s ++ Str.dq.

(** The text [{"messages":[],"currentFile":{"content":"x"}}]. *)
Definition body_no_path : string :=
  Str.template
    ["{"; q "messages"; ":[],"; q "currentFile"; ":{"; q "content"; ":";
     q "x"; "}}"].

(** The text of the specification's happy-path body, without messages in
    the array. *)
Definition body_with_file : string :=
  Str.template
    ["{"; q "messages"; ":[],"; q "currentFile"; ":{"; q "path"; ":";
     q "/src/a.ts"; ","; q "content"; ":"; q "function f(){}"; "}}"].

(** A JSON reader that knows a few texts and rejects every other one. *)
Definition known_bodies : list (string * json) :=
  [ ("{}", JObj []);
    ("null", JNull);
    (body_no_path,
     JObj [("messages", JArr []);
           ("currentFile", JObj [("content", JStr "x")])]);
    (body_with_file,
     JObj [("messages", JArr []);
           ("currentFile",
            JObj [("path", JStr "/src/a.ts");
                  ("content", JStr "function f(){}")])]) ].

Definition JSON_parse (text : string) : option json :=
  get_field text known_bodies.

Definition convertToModelMessages (ms : list Route.UIMessage)
  : outcome Route.exn (list Route.ModelMessage) :=
  Returned (flat_map (fun m => match m with Some j => [j] | None => [] end) ms).

Definition env : Route.Env :=
  {| Route.auth_api_getSession := getSession;
     Route.JSON_parse := JSON_parse;
     Route.convertToModelMessages := convertToModelMessages |}.

Definition anonymous (text : string) : Route.Request :=
  {| Route.headers := []; Route.body := text; Route.signal := 0 |}.

Definition signed_in (text : string) : Route.Request :=
  {| Route.headers := [("cookie", "session=alice")];
     Route.body := text;
     Route.signal := 0 |}.

(** The session endpoint as the middleware reaches it. *)
Definition betterFetch (path baseURL : string) (h : list (string * string))
  : Middleware.FetchResult :=
  match Middleware.headers_get "cookie" h with
  | Some c =>
      if String.eqb c "session=alice"
      then {| Middleware.data := Some (JObj [("user", JStr "alice")]);
              Middleware.error := Some JNull |}
      else {| Middleware.data := Some JNull; Middleware.error := Some JNull |}
  | None => {| Middleware.data := Some JNull; Middleware.error := Some JNull |}
  end.

Definition mw_env : Middleware.Env :=
  {| Middleware.betterFetch := betterFetch |}.

Definition page (path : string) (cookies : list (string * string))
  : Middleware.NextRequest :=
  let u := {| Middleware.origin := "http://localhost:3000";
              Middleware.pathname := path;
              Middleware.searchParams := [] |} in
  {| Middleware.nextUrl := u; Middleware.url := u;
     Middleware.headers := cookies |}.

End Sample.

(* ===================================================================== *)
(** ** The sign-up page ([SignUpPage]) *)
(* ===================================================================== *)

Module SignUp.
Import Eff.
Local Open Scope eff_scope.

(** A character of a string stands for one UTF-16 code unit below 256;
    [length], the regular expressions and [trim] work on code units. *)

(** *** Character classes of the regular expressions (lines 31-33) *)

Definition in_range (lo hi : nat) (c : ascii) : bool :=
  Nat.leb lo (nat_of_ascii c) && Nat.leb (nat_of_ascii c) hi.

(** [[a-z]], [[A-Z]] and [\d]. *)
Definition is_lower (c : ascii) : bool := in_range 97 122 c.
Definition is_upper (c : ascii) : bool := in_range 65 90 c.
Definition is_digit (c : ascii) : bool := in_range 48 57 c.

(** [[^a-zA-Z\d]]. *)
Definition is_special (c : ascii) : bool :=
  negb (is_lower c || is_upper c || is_digit c).

(** [/[class]/.test(s)]: some character of [s] is in the class. *)
Fixpoint test (class : ascii -> bool) (s : string) : bool :=
  match s with
  | EmptyString => false
  | String c rest => class c || test class rest
  end.

(** *** [getPasswordStrength] (lines 25-45) *)

(** The returned object; a property that the spread leaves out is
    [None]. *)
Record Strength : Type := {
  strength : nat;
  label : option string;
  color : option string
}.

Definition strengthMap (n : nat) : option (string * string) :=
  match n with
  | 0 => Some ("Very Weak", "bg-red-500")
  | 1 => Some ("Weak", "bg-orange-500")
  | 2 => Some ("Fair", "bg-yellow-500")
  | 3 => Some ("Good", "bg-blue-500")
  | 4 => Some ("Strong", "bg-green-500")
  | 5 => Some ("Very Strong", "bg-green-600")
  | _ => None
  end.

(** [if (cond) strength++]. *)
Definition bump (cond : bool) (n : nat) : nat := if cond then S n else n.

(** The counter after the five tests. *)
Definition score (password : string) : nat :=
  let strength := 0 in
  let strength := bump (Nat.leb 8 (String.length password)) strength in
  let strength := bump (Nat.leb 12 (String.length password)) strength in
  let strength :=
    bump (test is_lower password && test is_upper password) strength in
  let strength := bump (test is_digit password) strength in
  let strength := bump (test is_special password) strength in
  strength.

Definition getPasswordStrength (password : string) : Strength :=
  match password with
  | EmptyString =>
      {| strength := 0; label := Some ""; color := Some "" |}
  | String _ _ =>
      let strength := score password in
      {| strength := strength;
         label := option_map fst (strengthMap strength);
         color := option_map snd (strengthMap strength) |}
  end.


(** *** [handleSubmit] (lines 47-90) *)

Record FormData : Type := {
  name : string;
  email : string;
  password : string;
  confirmPassword : string
}.

Definition exn : Type := string.

(** How [authClient.signUp.email] ends: it calls [onSuccess], calls
    [onError] with the error's message if it has one, or rejects. *)
Inductive SignUpOutcome : Type :=
| Succeeded
| Failed (message : option string)
| Rejected (err : exn).

Record SignUpArgs : Type := {
  arg_email : string;
  arg_password : string;
  arg_name : string
}.

Record Env : Type := {
  authClient_signUp_email : SignUpArgs -> SignUpOutcome
}.

Inductive event : Type :=
| PreventDefault
| SetIsLoading (b : bool)
| ToastError (msg : string)
| ToastSuccess (msg : string)
| RouterPush (href : string)
| SignUpEmail (args : SignUpArgs)
| ConsoleError (msg : string) (err : exn).

(** [s.split("@")[0]]: the part before the first [@], all of [s]
    without one. *)
Fixpoint before_at (s : string) : string :=
  match s with
  | EmptyString => EmptyString
  | String c rest =>
      if Ascii.eqb c "@" then EmptyString else String c (before_at rest)
  end.

(** [x || fallback] on strings: the empty string is falsy. *)
Definition or_else (x fallback : string) : string :=
  match x with
  | EmptyString => fallback
  | String _ _ => x
  end.

(** [a ?? b]. *)
Definition nullish (a : option string) (b : string) : string :=
  match a with
  | Some x => x
  | None => b
  end.

(** [try { m } finally { f }]. *)
Definition try_finally {E X A} (m : M E X A) (f : M E X unit) : M E X A :=
  let (t, r) := m in
  let (t', r') := f in
  ((t ++ t')%list,
   match r' with
   | inl e => inl e
   | inr _ => r
   end).

(** The call of lines 64-83 with its two callbacks. *)
Definition signUp_email (env : Env) (args : SignUpArgs) : M event exn unit :=
  emit (SignUpEmail args) ;;;
  match authClient_signUp_email env args with
  | Succeeded =>
      emit (ToastSuccess
              "Account created successfully! Please check your email for verification.") ;;;
      emit (RouterPush
              "/auth/login?success=Please verify your email to continue")
  | Failed message => emit (ToastError (nullish message "Sign up failed"))
  | Rejected err => throw err
  end.

Definition handleSubmit (env : Env) (formData : FormData)
  : M event exn unit :=
  emit PreventDefault ;;;
  emit (SetIsLoading true) ;;;
  if negb (String.eqb (password formData) (confirmPassword formData)) then
    emit (ToastError "Passwords do not match") ;;;
    emit (SetIsLoading false) ;;;
    ret tt
  else if Nat.ltb (String.length (password formData)) 8 then
    emit (ToastError "Password must be at least 8 characters long") ;;;
    emit (SetIsLoading false) ;;;
    ret tt
  else
    try_finally
      (try_catch
         (signUp_email env
            {| arg_email := email formData;
               arg_password := password formData;
               arg_name := or_else (before_at (email formData)) "User" |})
         (fun err =>
            emit (ConsoleError "Signup error:" err) ;;;
            emit (ToastError
                    "An unexpected error occurred. Please try again.")))
      (emit (SetIsLoading false)).

(** The object of lines 65-69, which [handleSubmit] passes to
    [authClient.signUp.email]. *)
Definition args_of (formData : FormData) : SignUpArgs :=
  {| arg_email := email formData;
     arg_password := password formData;
     arg_name := or_else (before_at (email formData)) "User" |}.

(** *** The submit button (lines 262-272) *)

(** White space as [trim] sees it, among the characters modelled. *)
Definition is_space (c : ascii) : bool :=
  in_range 9 13 c || Nat.eqb (nat_of_ascii c) 32
  || Nat.eqb (nat_of_ascii c) 160.

Fixpoint trimStart (s : string) : string :=
  match s with
  | EmptyString => EmptyString
  | String c rest => if is_space c then trimStart rest else s
  end.

(** [trimEnd], read from the front: a character is kept when it is not
    white space or something is kept after it. *)
Fixpoint trimEnd (s : string) : string :=
  match s with
  | EmptyString => EmptyString
  | String c rest =>
      match trimEnd rest with
      | EmptyString => if is_space c then EmptyString
                       else String c EmptyString
      | kept => String c kept
      end
  end.

Definition trim (s : string) : string := trimEnd (trimStart s).

(** [!s] on a string. *)
Definition falsy (s : string) : bool :=
  match s with
  | EmptyString => true
  | String _ _ => false
  end.

Definition submit_disabled (isLoading : bool) (formData : FormData) : bool :=
  isLoading
  || falsy (trim (email formData))
  || falsy (password formData)
  || falsy (confirmPassword formData)
  || negb (String.eqb (password formData) (confirmPassword formData)).

Definition is_signUp (ev : event) : bool :=
  match ev with
  | SignUpEmail _ => true
  | _ => false
  end.

(** The calls of [authClient.signUp.email] in a trace. *)
Definition signUp_calls (t : list event) : list SignUpArgs :=
  flat_map (fun ev => match ev with SignUpEmail a => [a] | _ => [] end) t.

End SignUp.

(* ===================================================================== *)
(** ** Vocabulary for the statements below *)
(* ===================================================================== *)

Module Answers.
Import Json Eff Route.

(** The four responses the handler builds, each with what the trace of
    the run must then hold: no model call, or the one call whose stream
    is the response. *)
Inductive answer (req : Request) (t : list event) : Response.t -> Prop :=
| Unauthorized :
    model_calls t = 0 ->
    answer req t (Response.mk (BText "Unauthorized") 401 [])
| ServerError :
    model_calls t = 0 ->
    answer req t (Response.mk (BText "Internal Server Error") 500 [])
| Invalid (errors : list Zod.ZodIssue) :
    model_calls t = 0 ->
    answer req t
      (Response.mk (BJsonStringify (invalid_request errors)) 400
         [("Content-Type", "application/json")])
| Stream (call : StreamTextCall) :
    filter is_model_call t = [StreamText call] ->
    model call = "anthropic/claude-sonnet-4.5" ->
    call_tools call = tools ->
    abortSignal call = signal req ->
    answer req t (toUIMessageStreamResponse call).

(** The body read events of a trace. *)
Definition body_reads (t : list event) : list string :=
  flat_map (fun ev => match ev with Io (ReqJson raw) => [raw] | _ => [] end) t.

End Answers.

Module Paths.
Import Middleware.

(** What the lookahead of the matcher describes, for the rest of a path
    after its first slash: the framework's two directories, [favicon],
    any one character and [ico], or an image extension at the end. *)
Definition asset_like (rest : string) : Prop :=
  Str.startsWith rest "_next/static" = true \/
  Str.startsWith rest "_next/image" = true \/
  (exists c tail, rest = "favicon" ++ String c ("ico" ++ tail)) \/
  (exists ext, In ext image_extensions /\ Str.endsWith rest ("." ++ ext)).

End Paths.

(* ===================================================================== *)
(** ** Facts about strings *)
(* ===================================================================== *)

Module StrFacts.
Import Str.

Lemma append_assoc (a b c : string) : (a ++ b) ++ c = a ++ (b ++ c).
Proof. induction a as [|x a IH]; simpl; [reflexivity | now rewrite IH]. Qed.

Lemma append_nil_r (a : string) : a ++ "" = a.
Proof. induction a as [|x a IH]; simpl; [reflexivity | now rewrite IH]. Qed.

Lemma strip_prefix_sound (p s r : string) :
  strip_prefix p s = Some r -> s = p ++ r.
Proof.
  revert s; induction p as [|c p IH]; intros s H; simpl in *.
  - now inversion H.
  - destruct s as [|d s]; [discriminate|].
    destruct (Ascii.eqb c d) eqn:E; [|discriminate].
    apply Ascii.eqb_eq in E; subst d. now rewrite (IH _ H).
Qed.

Lemma strip_prefix_append (p r : string) : strip_prefix p (p ++ r) = Some r.
Proof.
  induction p as [|c p IH]; simpl; [reflexivity|].
  now rewrite Ascii.eqb_refl.
Qed.

Lemma startsWith_spec (s p : string) :
  startsWith s p = true <-> exists r, s = p ++ r.
Proof.
  unfold startsWith; split.
  - destruct (strip_prefix p s) as [r|] eqn:E; [|discriminate].
    intros _. exists r. now apply strip_prefix_sound.
  - intros [r ->]. now rewrite strip_prefix_append.
Qed.

Lemma includes_refl (s : string) : includes s s.
Proof. exists "", "". simpl. now rewrite append_nil_r. Qed.

Lemma includes_trans (a b c : string) :
  includes a b -> includes b c -> includes a c.
Proof.
  intros (x & y & ->) (u & v & ->). exists (x ++ u), (v ++ y).
  now rewrite !append_assoc.
Qed.

Lemma includes_append_l (a b n : string) : includes b n -> includes (a ++ b) n.
Proof.
  intros (x & y & ->). exists (a ++ x), y. now rewrite append_assoc.
Qed.

Lemma includes_append_r (a b n : string) : includes a n -> includes (a ++ b) n.
Proof.
  intros (x & y & ->). exists x, (y ++ b). now rewrite !append_assoc.
Qed.

(** The boolean search finds only real occurrences. *)
Lemma includesb_sound (hay needle : string) :
  includesb hay needle = true -> includes hay needle.
Proof.
  induction hay as [|c hay IH]; simpl; intros H.
  - apply orb_true_iff in H as [H|H]; [|discriminate].
    apply startsWith_spec in H as [r ->]. now exists "", r.
  - apply orb_true_iff in H as [H|H].
    + apply startsWith_spec in H as [r ->]. now exists "", r.
    + destruct (IH H) as (x & y & ->). now exists (String c x), y.
Qed.

(** A line of a multi-line literal occurs in the literal. *)
Lemma includes_line (ls : list string) (l : string) :
  In l ls -> includes (lines ls) l.
Proof.
  induction ls as [|a ls IH]; [intros []|].
  intros [->|H].
  - destruct ls as [|b ls]; simpl; [apply includes_refl|].
    apply includes_append_r, includes_refl.
  - destruct ls as [|b ls]; [destruct H|].
    change (lines (a :: b :: ls)) with (a ++ nl ++ lines (b :: ls)).
    now apply includes_append_l, includes_append_l, IH.
Qed.

Lemma lines_app (a b : list string) :
  a <> [] -> b <> [] -> lines (a ++ b) = lines a ++ nl ++ lines b.
Proof.
  induction a as [|x a IH]; intros Ha Hb; [now destruct Ha|].
  destruct a as [|y a].
  - destruct b as [|z b]; [now destruct Hb | reflexivity].
  - change (lines ((x :: y :: a) ++ b))
      with (x ++ nl ++ lines ((y :: a) ++ b)).
    rewrite IH by (assumption || discriminate).
    change (lines (x :: y :: a)) with (x ++ nl ++ lines (y :: a)).
    now rewrite !append_assoc.
Qed.

(** Consecutive lines of a multi-line literal occur in it, line feeds
    between them included. *)
Lemma includes_lines_window (before mid after : list string) :
  mid <> [] -> includes (lines (before ++ mid ++ after)) (lines mid).
Proof.
  intros Hm.
  assert (includes (lines (mid ++ after)) (lines mid)) as H.
  { destruct after as [|z after].
    - rewrite app_nil_r. apply includes_refl.
    - rewrite lines_app by (assumption || discriminate).
      apply includes_append_r, includes_refl. }
  destruct before as [|x before]; [exact H|].
  rewrite lines_app; [| discriminate | now destruct mid].
  now apply includes_append_l, includes_append_l.
Qed.

(** An interpolated piece of a template literal occurs in it. *)
Lemma includes_piece (parts : list string) (x : string) :
  In x parts -> includes (template parts) x.
Proof.
  induction parts as [|a parts IH]; [intros []|].
  intros [->|H]; simpl.
  - apply includes_append_r, includes_refl.
  - now apply includes_append_l, IH.
Qed.

End StrFacts.

(* ===================================================================== *)
(** ** The chat route: what the handler does *)
(* ===================================================================== *)

Module RouteSpec.
Import Json Eff Route.

(** Unfolds one run of the handler down to its trace and result. *)
Ltac run_POST :=
  unfold POST, getSession, req_json, requestSchema_parse, streamText,
    console_log, console_error, try_catch, bind, emit, of_outcome, ret, throw.

Lemma POST_unauthorized_run (env : Env) (req : Request)
  (session : option Session) :
  auth_api_getSession env (headers req) = Returned session ->
  session_user session = None ->
  POST env req =
    ([ Io (AuthGetSession (headers req));
       Io (ConsoleLog [LStr "[API] Unauthorized request"]) ],
     inr (Response.mk (BText "Unauthorized") 401 [])).
Proof.
  intros Hs Hu. run_POST. rewrite Hs, Hu. reflexivity.
Qed.

Lemma POST_not_json_run (env : Env) (req : Request)
  (session : option Session) (u : User) :
  auth_api_getSession env (headers req) = Returned session ->
  session_user session = Some u ->
  JSON_parse env (body req) = None ->
  POST env req =
    ([ Io (AuthGetSession (headers req));
       Io (ReqJson (body req));
       Io (ConsoleError
             [ LStr "[API] Chat error:";
               LError (SyntaxError "Unexpected token in JSON") ]) ],
     inr (Response.mk (BText "Internal Server Error") 500 [])).
Proof.
  intros Hs Hu Hb. run_POST. rewrite Hs, Hu, Hb. reflexivity.
Qed.

Lemma POST_null_body_run (env : Env) (req : Request)
  (session : option Session) (u : User) :
  auth_api_getSession env (headers req) = Returned session ->
  session_user session = Some u ->
  JSON_parse env (body req) = Some JNull ->
  POST env req =
    ([ Io (AuthGetSession (headers req));
       Io (ReqJson (body req));
       Io (ConsoleError
             [ LStr "[API] Chat error:";
               LError (TypeError
                 "Cannot read properties of null (reading 'messages')") ]) ],
     inr (Response.mk (BText "Internal Server Error") 500 [])).
Proof.
  intros Hs Hu Hb. run_POST. rewrite Hs, Hu, Hb. reflexivity.
Qed.

(** Reading [body.messages] succeeds on every body but [null]. *)
Lemma get_messages_not_null (b : json) :
  b <> JNull -> exists v, get_messages b = ([], inr v).
Proof.
  destruct b; intros H; try (eexists; reflexivity). now destruct H.
Qed.

(** A body that is read and fails validation is answered with 400 and
    the issues, and the model is not called. *)
Lemma POST_invalid_body_run (env : Env) (req : Request)
  (session : option Session) (u : User) (b : json)
  (errors : list Zod.ZodIssue) :
  auth_api_getSession env (headers req) = Returned session ->
  session_user session = Some u ->
  JSON_parse env (body req) = Some b ->
  b <> JNull ->
  Zod.parse requestSchema b = inl errors ->
  result (POST env req) =
    inr (Response.mk (BJsonStringify (invalid_request errors)) 400
           [("Content-Type", "application/json")]) /\
  model_calls (trace (POST env req)) = 0.
Proof.
  intros Hs Hu Hb Hn Hz.
  destruct (get_messages_not_null b Hn) as [v Hv].
  run_POST. rewrite Hs, Hu, Hb, Hv, Hz. split; reflexivity.
Qed.

(** *** Validation *)

Lemma ap_issues_l {A B} (i : list Zod.ZodIssue) (x : Zod.zres A) :
  exists errors, @Zod.ap A B (inl i) x = inl errors.
Proof. destruct x; simpl; eauto. Qed.

Lemma ap_issues_r {A B} (f : Zod.zres (A -> B)) (j : list Zod.ZodIssue) :
  exists errors, Zod.ap f (inl j) = inl errors.
Proof. destruct f; simpl; eauto. Qed.

Lemma z_string_rejects (p : list Zod.pathseg) (v : jsval) :
  is_string v = false ->
  Zod.z_string p v = inl [Zod.invalid_type "string" v p].
Proof. destruct v as [[]|]; simpl; intros H; try reflexivity; discriminate. Qed.

(** Case analysis on every parse result a goal still inspects, innermost
    first. *)
Ltac split_zres :=
  simpl;
  repeat match goal with
         | |- context [match ?x with inl _ => _ | inr _ => _ end] =>
             lazymatch x with
             | context [match _ with inl _ => _ | inr _ => _ end] => fail
             | _ => destruct x; simpl
             end
         end;
  eauto.

(** A body without [messages] does not pass the schema. *)
Lemma parse_missing_messages (b : json) :
  missing_messages b -> exists errors, Zod.parse requestSchema b = inl errors.
Proof.
  destruct b; simpl; intros H; try (eexists; reflexivity).
  unfold Zod.parse, requestSchema, Zod.z_object, Zod.field.
  simpl. rewrite H. simpl.
  match goal with
  | |- context [match ?x with inl _ => _ | inr _ => _ end] => destruct x
  end; eauto.
Qed.

(** A [currentFile] without a string [path] or [content] does not pass
    the schema. *)
Lemma parse_malformed_currentFile (b : json) :
  malformed_currentFile b ->
  exists errors, Zod.parse requestSchema b = inl errors.
Proof.
  intros (o & c & -> & Hc & Hbad).
  unfold Zod.parse, requestSchema, Zod.z_object, Zod.field.
  simpl. rewrite Hc. simpl.
  destruct Hbad as [H|H]; rewrite (z_string_rejects _ _ H); split_zres.
Qed.

(** Apart from the body [null], a request that lacks [messages] or has a
    malformed [currentFile] is answered with 400, the validation details,
    and no model call. *)
Lemma POST_rejects_invalid (env : Env) (req : Request)
  (session : option Session) (u : User) (b : json) :
  auth_api_getSession env (headers req) = Returned session ->
  session_user session = Some u ->
  JSON_parse env (body req) = Some b ->
  b <> JNull ->
  missing_messages b \/ malformed_currentFile b ->
  exists errors,
    result (POST env req) =
      inr (Response.mk (BJsonStringify (invalid_request errors)) 400
             [("Content-Type", "application/json")]) /\
    model_calls (trace (POST env req)) = 0.
Proof.
  intros Hs Hu Hb Hn Hbad.
  assert (exists errors, Zod.parse requestSchema b = inl errors) as [errors Hz].
  { destruct Hbad; [now apply parse_missing_messages
                   | now apply parse_malformed_currentFile]. }
  exists errors. now apply (POST_invalid_body_run env req session u b).
Qed.

Example POST_empty_object_400 :
  result (POST Sample.env (Sample.signed_in "{}")) =
    inr (Response.mk
           (BJsonStringify
              (invalid_request
                 [Zod.invalid_type "array" undefined [Zod.Key "messages"]]))
           400 [("Content-Type", "application/json")]) /\
  model_calls (trace (POST Sample.env (Sample.signed_in "{}"))) = 0.
Proof. split; reflexivity. Qed.

(** *** The claims about the handler *)

(** C1. The executor of [editFileWithPatch] is the one registered for
    the tool; for every path, diff and explanation it returns exactly the
    record with these three passed through, the status
    ["pending_approval"] and the message built from path and
    explanation, makes no call to anything outside (its trace is empty)
    and does not throw; and two invocations on the same input give the
    same record. *)
Theorem editFileWithPatch_execute_pure :
  execute editFileWithPatch = Some editFileWithPatch_execute /\
  (forall path diff explanation : string,
     editFileWithPatch_execute (PatchInput.mk path diff explanation) =
       ([], inr {| PatchProposal.path := path;
                   PatchProposal.diff := diff;
                   PatchProposal.explanation := explanation;
                   PatchProposal.status := "pending_approval";
                   PatchProposal.message :=
                     "Suggested edit to " ++ path ++ ": " ++ explanation |})) /\
  (forall i1 i2 : PatchInput.t,
     i1 = i2 ->
     editFileWithPatch_execute i1 = editFileWithPatch_execute i2 /\
     trace (editFileWithPatch_execute i1) = []).
Proof.
  split; [reflexivity|]. split.
  - intros path diff explanation.
    unfold editFileWithPatch_execute, ret. simpl.
    now rewrite StrFacts.append_nil_r.
  - intros i1 i2 ->. split; reflexivity.
Qed.

Lemma editFileWithPatch_execute_pure_witness :
  editFileWithPatch_execute
    (PatchInput.mk "/src/a.ts" "--- /src/a.ts" "add a log") =
  editFileWithPatch_execute
    (PatchInput.mk "/src/a.ts" "--- /src/a.ts" "add a log") /\
  result (editFileWithPatch_execute
            (PatchInput.mk "/src/a.ts" "--- /src/a.ts" "add a log")) =
    inr (PatchProposal.mk "/src/a.ts" "--- /src/a.ts" "add a log"
           "pending_approval" "Suggested edit to /src/a.ts: add a log").
Proof.
  split.
  - apply (proj2 (proj2 editFileWithPatch_execute_pure)
             (PatchInput.mk "/src/a.ts" "--- /src/a.ts" "add a log")).
    reflexivity.
  - now rewrite (proj1 (proj2 editFileWithPatch_execute_pure)).
Defined.

(** C2. When the request's headers resolve to no session, or to a
    session without a user, the handler answers with status 401 and the
    streaming model client is not invoked. *)
Theorem POST_no_session_401 (env : Env) (req : Request)
  (session : option Session) :
  auth_api_getSession env (headers req) = Returned session ->
  session = None \/ (exists s, session = Some s /\ user s = None) ->
  exists r,
    result (POST env req) = inr r /\
    Response.status r = 401 /\
    model_calls (trace (POST env req)) = 0.
Proof.
  intros Hs Hu.
  assert (session_user session = None) as Hn.
  { destruct Hu as [->|(s & -> & H)]; [reflexivity | exact H]. }
  rewrite (POST_unauthorized_run env req session Hs Hn).
  eexists. repeat split.
Qed.

Lemma POST_no_session_401_witness :
  auth_api_getSession Sample.env (headers (Sample.anonymous "{}"))
    = Returned None /\
  exists r,
    result (POST Sample.env (Sample.anonymous "{}")) = inr r /\
    Response.status r = 401 /\
    model_calls (trace (POST Sample.env (Sample.anonymous "{}"))) = 0.
Proof.
  split; [reflexivity|].
  apply (POST_no_session_401 Sample.env (Sample.anonymous "{}") None).
  - reflexivity.
  - left; reflexivity.
Defined.

(** C3, at the body [null]. A signed-in request whose body is the JSON
    text [null] has no [messages]; the handler reads [body.messages] for
    its log line before validating, which throws on [null], and the
    answer is 500 with the plain text, not the 400 validation answer. *)
Theorem POST_null_body_500 :
  JSON_parse Sample.env (body (Sample.signed_in "null")) = Some JNull /\
  missing_messages JNull /\
  result (POST Sample.env (Sample.signed_in "null")) =
    inr (Response.mk (BText "Internal Server Error") 500 []).
Proof. repeat split. Qed.

(** C4, as the specification states it, fails: some request without a
    session is answered with a body that is not empty. *)
Lemma unauthorized_body_not_empty :
  ~ (forall (env : Env) (req : Request) (session : option Session)
            (r : Response.t),
       auth_api_getSession env (headers req) = Returned session ->
       session_user session = None ->
       result (POST env req) = inr r ->
       Response.body r = BText "").
Proof.
  intros H.
  specialize (H Sample.env (Sample.anonymous "{}") None _
                eq_refl eq_refl eq_refl).
  discriminate H.
Qed.

(** C4, amended. When the session check fails, the 401 response carries
    the plain-text body ["Unauthorized"]. *)
Theorem POST_no_session_body (env : Env) (req : Request)
  (session : option Session) :
  auth_api_getSession env (headers req) = Returned session ->
  session_user session = None ->
  result (POST env req) = inr (Response.mk (BText "Unauthorized") 401 []).
Proof.
  intros Hs Hu. now rewrite (POST_unauthorized_run env req session Hs Hu).
Qed.

Lemma POST_no_session_body_witness :
  result (POST Sample.env (Sample.anonymous "{}")) =
    inr (Response.mk (BText "Unauthorized") 401 []).
Proof.
  apply (POST_no_session_body Sample.env (Sample.anonymous "{}") None);
    reflexivity.
Defined.

(** C9. With a valid session and a body that is not JSON, the handler
    answers 500 with the plain text ["Internal Server Error"]: the
    [SyntaxError] of [req.json()] is not a [ZodError], the 400 answer
    is not produced, and the model is not called. *)
Theorem POST_not_json_500 (env : Env) (req : Request)
  (session : option Session) (u : User) :
  auth_api_getSession env (headers req) = Returned session ->
  session_user session = Some u ->
  JSON_parse env (body req) = None ->
  result (POST env req) =
    inr (Response.mk (BText "Internal Server Error") 500 []) /\
  (forall r, result (POST env req) = inr r -> Response.status r <> 400) /\
  In (Io (ConsoleError
            [ LStr "[API] Chat error:";
              LError (SyntaxError "Unexpected token in JSON") ]))
     (trace (POST env req)) /\
  instanceof_ZodError (SyntaxError "Unexpected token in JSON") = None /\
  model_calls (trace (POST env req)) = 0.
Proof.
  intros Hs Hu Hb.
  rewrite (POST_not_json_run env req session u Hs Hu Hb).
  repeat split.
  - intros r H. inversion H. simpl. discriminate.
  - simpl. auto.
Qed.

Lemma POST_not_json_500_witness :
  JSON_parse Sample.env (body (Sample.signed_in "{")) = None /\
  result (POST Sample.env (Sample.signed_in "{")) =
    inr (Response.mk (BText "Internal Server Error") 500 []).
Proof.
  split; [reflexivity|].
  apply (POST_not_json_500 Sample.env (Sample.signed_in "{")
           (Some Sample.alice) {| user_id := "alice" |});
    reflexivity.
Defined.

(** *** The system prompt *)

(** Membership in a list literal. *)
Ltac in_list := cbn [In]; repeat (first [left; reflexivity | right]).

(** A fixed phrase inside a line of the prompt. *)
Ltac phrase_in_line l :=
  apply (StrFacts.includes_trans _ l);
  [ apply StrFacts.includes_line; in_list
  | apply StrFacts.includesb_sound; reflexivity ].

(** C5. With a current file, the prompt contains the file's path and
    content verbatim (the path after ["- Path: "], the content between
    the code fences), requires the [editFileWithPatch] tool for suggested
    changes, lists the unified-diff format with at least 3 lines of
    context, and asks for an explanation.  Without one, the prompt is the
    generic text, which still directs the model to [editFileWithPatch]. *)
Theorem systemPrompt_contents :
  (forall path content : string,
     let prompt := systemPrompt (Some (CurrentFile.mk path content)) in
     Str.includes prompt ("- Path: " ++ path) /\
     Str.includes prompt (Str.lines ["- Content:"; "```"; content; "```"]) /\
     Str.includes prompt path /\
     Str.includes prompt content /\
     Str.includes prompt
       "When suggesting code changes, you MUST use the editFileWithPatch tool" /\
     Str.includes prompt "The diff should be in unified diff format with:" /\
     Str.includes prompt "File paths (--- and +++)" /\
     Str.includes prompt "Hunk headers (@@ -start,count +start,count @@)" /\
     Str.includes prompt "Context lines (starting with space)" /\
     Str.includes prompt
       "Include at least 3 lines of context before and after changes" /\
     Str.includes prompt
       "Provide a clear explanation of what you're changing and why") /\
  systemPrompt None =
    "You are an AI coding assistant. Help the user with their coding questions. When you need to suggest code changes, use the editFileWithPatch tool." /\
  Str.includes (systemPrompt None)
    "When you need to suggest code changes, use the editFileWithPatch tool".
Proof.
  split; [|split].
  - intros path content prompt. subst prompt. unfold systemPrompt.
    cbv zeta. cbn [CurrentFile.path CurrentFile.content].
    repeat split.
    + apply (StrFacts.includes_trans _ (Str.template ["- Path: "; path])).
      * apply StrFacts.includes_line; in_list.
      * exists "", "". unfold Str.template, fold_right.
        now rewrite !StrFacts.append_nil_r.
    + match goal with
      | |- Str.includes (Str.lines (?a :: ?b :: ?c :: ?d :: ?rest)) _ =>
          apply (StrFacts.includes_lines_window [a; b; c; d]
                   ["- Content:"; "```"; content; "```"])
      end.
      discriminate.
    + apply (StrFacts.includes_trans _ (Str.template ["- Path: "; path])).
      * apply StrFacts.includes_line; in_list.
      * apply StrFacts.includes_piece; in_list.
    + apply StrFacts.includes_line; in_list.
    + phrase_in_line
        "When suggesting code changes, you MUST use the editFileWithPatch tool:".
    + phrase_in_line "2. The diff should be in unified diff format with:".
    + phrase_in_line "   - File paths (--- and +++)".
    + phrase_in_line "   - Hunk headers (@@ -start,count +start,count @@)".
    + phrase_in_line "   - Context lines (starting with space)".
    + phrase_in_line
        "3. Include at least 3 lines of context before and after changes".
    + phrase_in_line
        "4. Provide a clear explanation of what you're changing and why".
  - reflexivity.
  - apply StrFacts.includesb_sound. reflexivity.
Qed.

(** Whenever the handler calls the model, the body was read as JSON and
    passed the schema, and the system prompt of the call is the prompt
    composed from the parsed [currentFile] alone. *)
Lemma model_call_system (env : Env) (req : Request) (c : StreamTextCall) :
  model_call_of (trace (POST env req)) = Some c ->
  exists b p,
    JSON_parse env (body req) = Some b /\
    Zod.parse requestSchema b = inr p /\
    system c = systemPrompt (currentFile p).
Proof.
  run_POST.
  destruct (auth_api_getSession env (headers req)) as [session|e];
    [|destruct e; intros H; simpl in H; discriminate H].
  destruct (session_user session) as [u|];
    [|intros H; simpl in H; discriminate H].
  destruct (JSON_parse env (body req)) as [b|];
    [|intros H; simpl in H; discriminate H].
  destruct (Zod.parse requestSchema b) as [errors|p] eqn:Hz.
  - intros H. destruct b; simpl in H; rewrite ?Hz in H; simpl in H;
      discriminate H.
  - intros H. exists b, p. split; [reflexivity|]. split; [exact Hz|].
    destruct (convertToModelMessages env (messages p)) as [ms|e];
      [|destruct e];
      destruct b; simpl in H; rewrite ?Hz in H; simpl in H;
      try discriminate H; now inversion H.
Qed.

(** C6. Composing the system prompt is deterministic: identical
    [currentFile] inputs, present or absent, give identical prompts; and
    two requests whose bodies parse to the same [currentFile] hand the
    same system prompt to the model, whatever else differs. *)
Theorem systemPrompt_deterministic :
  (forall f1 f2 : option CurrentFile.t,
     f1 = f2 -> systemPrompt f1 = systemPrompt f2) /\
  (forall (env1 env2 : Env) (req1 req2 : Request) (b1 b2 : json)
          (p1 p2 : ChatRequest) (c1 c2 : StreamTextCall),
     JSON_parse env1 (body req1) = Some b1 ->
     JSON_parse env2 (body req2) = Some b2 ->
     Zod.parse requestSchema b1 = inr p1 ->
     Zod.parse requestSchema b2 = inr p2 ->
     currentFile p1 = currentFile p2 ->
     model_call_of (trace (POST env1 req1)) = Some c1 ->
     model_call_of (trace (POST env2 req2)) = Some c2 ->
     system c1 = system c2).
Proof.
  split.
  - intros f1 f2 ->. reflexivity.
  - intros env1 env2 req1 req2 b1 b2 p1 p2 c1 c2 J1 J2 Z1 Z2 Hf H1 H2.
    destruct (model_call_system env1 req1 c1 H1) as (b1' & p1' & J1' & Z1' & ->).
    destruct (model_call_system env2 req2 c2 H2) as (b2' & p2' & J2' & Z2' & ->).
    rewrite J1 in J1'. inversion J1'; subst b1'.
    rewrite J2 in J2'. inversion J2'; subst b2'.
    rewrite Z1 in Z1'. inversion Z1'; subst p1'.
    rewrite Z2 in Z2'. inversion Z2'; subst p2'.
    now rewrite Hf.
Qed.

Lemma systemPrompt_deterministic_witness :
  systemPrompt (Some (CurrentFile.mk "/src/a.ts" "function f(){}")) =
  systemPrompt (Some (CurrentFile.mk "/src/a.ts" "function f(){}")) /\
  exists c1 c2,
    model_call_of
      (trace (POST Sample.env (Sample.signed_in Sample.body_with_file)))
      = Some c1 /\
    model_call_of
      (trace (POST Sample.env
                {| headers := [("cookie", "session=alice")];
                   body := Sample.body_with_file;
                   signal := 7 |}))
      = Some c2 /\
    abortSignal c1 <> abortSignal c2 /\
    system c1 = system c2.
Proof.
  split.
  - apply (proj1 systemPrompt_deterministic). reflexivity.
  - eexists _, _. split; [reflexivity|]. split; [reflexivity|].
    split; [simpl; discriminate|].
    eapply (proj2 systemPrompt_deterministic Sample.env Sample.env
              (Sample.signed_in Sample.body_with_file)
              {| headers := [("cookie", "session=alice")];
                 body := Sample.body_with_file;
                 signal := 7 |});
      reflexivity.
Defined.

(** *** The tool registry *)

(** C7. The registry holds exactly six tools, named [listFiles],
    [readFile], [createFile], [createFolder], [runCommand] and
    [editFileWithPatch], no name twice; [editFileWithPatch] is the only
    one with a server-side executor, and every other tool has none. *)
Theorem tools_registry :
  tool_names tools =
    [ "listFiles"; "readFile"; "createFile"; "createFolder"; "runCommand";
      "editFileWithPatch" ] /\
  length tools = 6 /\
  NoDup (tool_names tools) /\
  tool_names (filter (fun entry => has_executor (snd entry)) tools) =
    ["editFileWithPatch"] /\
  execute editFileWithPatch = Some editFileWithPatch_execute /\
  (forall (name : string) (t : Tool),
     In (name, t) tools -> name <> "editFileWithPatch" ->
     execute t = None).
Proof.
  split; [reflexivity|]. split; [reflexivity|].
  split.
  { unfold tool_names, tools. cbn [map fst].
    repeat constructor; cbn [In]; intuition discriminate. }
  split; [reflexivity|]. split; [reflexivity|].
  intros name t H Hn. unfold tools in H. cbn [In] in H.
  repeat (destruct H as [H|H];
          [injection H as <- <-; first [reflexivity | now destruct Hn]|]).
  destruct H.
Qed.

Lemma tools_registry_witness :
  In ("runCommand", runCommand) tools /\ execute runCommand = None.
Proof.
  assert (In ("runCommand", runCommand) tools) as H
    by (unfold tools; cbn [In]; auto 10).
  split; [exact H|].
  apply (proj2 (proj2 (proj2 (proj2 (proj2 tools_registry))))
           "runCommand" runCommand H).
  discriminate.
Defined.

End RouteSpec.

(* ===================================================================== *)
(** ** The middleware: who is redirected and who is left alone *)
(* ===================================================================== *)

Module MiddlewareSpec.
Import Json Eff Middleware.

(** *** The matcher *)

Lemma dot_star_app (k : string -> bool) (a s : string) :
  all_dot a = true -> k s = true -> dot_star k (a ++ s) = true.
Proof.
  induction a as [|c a IH]; simpl; intros Ha Hk.
  - destruct s; simpl; now rewrite Hk.
  - apply andb_true_iff in Ha as [Hc Ha].
    rewrite Hc, (IH Ha Hk). apply orb_true_r.
Qed.

Lemma dot_star_to_end (s : string) :
  dot_star is_empty s = true -> all_dot s = true.
Proof.
  induction s as [|c s IH]; simpl; [reflexivity|].
  intros H. apply andb_true_iff in H as [Hc H]. now rewrite Hc, IH.
Qed.

Lemma all_dot_app (a b : string) :
  all_dot (a ++ b) = true -> all_dot a = true.
Proof.
  induction a as [|c a IH]; simpl; [reflexivity|].
  intros H. apply andb_true_iff in H as [Hc H]. now rewrite Hc, IH.
Qed.

(** After [.*] has taken the stem, the lookahead accepts a dot, one of
    the six extensions and the end of the path. *)
Lemma extension_at_end (ext : string) :
  In ext image_extensions ->
  matches (Seq (Lit ".") (Seq image_extension EndOfInput)) ("." ++ ext)
    (fun _ => true) = true.
Proof.
  unfold image_extensions. cbn [In].
  intros H; repeat (destruct H as [<-|H]; [reflexivity|]); destruct H.
Qed.

(** A path that ends in an image extension is not matched. *)
Lemma image_path_not_matched (rest stem ext : string) :
  In ext image_extensions ->
  rest = stem ++ "." ++ ext ->
  negb (matches excluded rest (fun _ => true)) && dot_star is_empty rest
    = false.
Proof.
  intros Hext ->.
  destruct (all_dot stem) eqn:Hs.
  - assert (matches excluded (stem ++ "." ++ ext) (fun _ => true) = true)
      as ->; [|reflexivity].
    unfold excluded. cbn [matches].
    rewrite (dot_star_app _ stem ("." ++ ext) Hs (extension_at_end ext Hext)).
    now rewrite !orb_true_r.
  - destruct (dot_star is_empty (stem ++ "." ++ ext)) eqn:Hd;
      [|apply andb_false_r].
    apply dot_star_to_end, all_dot_app in Hd. congruence.
Qed.

(** The matcher leaves static assets to the framework. *)
Lemma static_asset_not_matched (pathname : string) :
  static_asset pathname -> config_matches pathname = false.
Proof.
  unfold static_asset, config_matches, matcher.
  intros [H|[H|[H|(ext & Hext & stem & ->)]]].
  1-3: apply StrFacts.startsWith_spec in H as [r ->]; reflexivity.
  destruct stem as [|c stem].
  - unfold image_extensions in Hext. cbn [In] in Hext.
    repeat (destruct Hext as [<-|Hext]; [reflexivity|]). destruct Hext.
  - change (String c stem ++ "." ++ ext)
      with (String c (stem ++ "." ++ ext)).
    cbn [matches Str.strip_prefix].
    destruct (Ascii.eqb "/" c); [|reflexivity].
    now apply (image_path_not_matched _ stem ext).
Qed.

(** *** The claims about the middleware *)

(** C8. A request for a path that is neither an authentication page nor
    an API route, and for which the session lookup yields no data, is
    answered by a redirect to [/auth/login] on the request's origin, the
    requested pathname being the value of the [redirect] query
    parameter. *)
Theorem middleware_redirects_to_login (env : Env) (request : NextRequest) :
  is_public (pathname (nextUrl request)) = false ->
  truthy
    (data (betterFetch env "/api/auth/get-session" (origin (nextUrl request))
             [("cookie", or_empty (headers_get "cookie" (headers request)))]))
    = false ->
  response_of (middleware env request) =
    redirect {| origin := origin (url request);
                pathname := "/auth/login";
                searchParams :=
                  [("redirect", pathname (nextUrl request))] |}.
Proof.
  intros Hp Hs.
  unfold middleware, fetch_session, bind, emit, ret.
  rewrite Hp. cbv zeta. cbn [fst snd]. rewrite Hs. reflexivity.
Qed.

Lemma middleware_redirects_to_login_witness :
  is_public "/dashboard" = false /\
  response_of (middleware Sample.mw_env (Sample.page "/dashboard" [])) =
    redirect {| origin := "http://localhost:3000";
                pathname := "/auth/login";
                searchParams := [("redirect", "/dashboard")] |} /\
  response_of (handle Sample.mw_env (Sample.page "/dashboard" [])) =
    Some (redirect {| origin := "http://localhost:3000";
                      pathname := "/auth/login";
                      searchParams := [("redirect", "/dashboard")] |}).
Proof.
  split; [reflexivity|]. split; [|reflexivity].
  apply (middleware_redirects_to_login Sample.mw_env
           (Sample.page "/dashboard" []));
    reflexivity.
Defined.

(** C10. A request for a static asset (a path under [/_next/static] or
    [/_next/image], [/favicon.ico], or a path ending in [.svg], [.png],
    [.jpg], [.jpeg], [.gif] or [.webp]) never reaches the middleware, and
    a request for a path starting with [/auth/login], [/auth/signup] or
    [/api/] is passed on by it at once: in both cases no session lookup
    is made and no redirect is answered, whatever the session endpoint
    would say. *)
Theorem public_and_static_bypass (env : Env) (request : NextRequest) :
  static_asset (pathname (nextUrl request)) \/
  is_public (pathname (nextUrl request)) = true ->
  trace (handle env request) = [] /\
  is_redirect (response_of (handle env request)) = false /\
  (static_asset (pathname (nextUrl request)) ->
   response_of (handle env request) = None) /\
  (is_public (pathname (nextUrl request)) = true ->
   middleware env request = ([], inr next)).
Proof.
  intros H.
  assert (is_public (pathname (nextUrl request)) = true ->
          middleware env request = ([], inr next)) as Hpub.
  { intros Hp. unfold middleware. now rewrite Hp. }
  assert (static_asset (pathname (nextUrl request)) ->
          handle env request = ([], inr None)) as Hstatic.
  { intros Hs. unfold handle.
    now rewrite (static_asset_not_matched _ Hs). }
  repeat split.
  - destruct H as [Hs|Hp]; [now rewrite (Hstatic Hs)|].
    unfold handle. destruct (config_matches _); [|reflexivity].
    now rewrite (Hpub Hp).
  - destruct H as [Hs|Hp]; [now rewrite (Hstatic Hs)|].
    unfold handle. destruct (config_matches _); [|reflexivity].
    now rewrite (Hpub Hp).
  - intros Hs. now rewrite (Hstatic Hs).
  - exact Hpub.
Qed.

Lemma public_and_static_bypass_witness :
  static_asset "/logo.png" /\
  is_public "/api/ai/chat" = true /\
  trace (handle Sample.mw_env (Sample.page "/logo.png" [])) = [] /\
  is_redirect
    (response_of (handle Sample.mw_env (Sample.page "/logo.png" [])))
    = false /\
  trace (handle Sample.mw_env (Sample.page "/api/ai/chat" [])) = [] /\
  is_redirect
    (response_of (handle Sample.mw_env (Sample.page "/api/ai/chat" [])))
    = false.
Proof.
  assert (static_asset "/logo.png") as Hs.
  { right; right; right. exists "png". split.
    - unfold image_extensions; cbn [In]; auto.
    - exists "/logo". reflexivity. }
  split; [exact Hs|]. split; [reflexivity|].
  destruct (public_and_static_bypass Sample.mw_env
              (Sample.page "/logo.png" []) (or_introl Hs))
    as (H1 & H2 & _).
  destruct (public_and_static_bypass Sample.mw_env
              (Sample.page "/api/ai/chat" []) (or_intror eq_refl))
    as (H3 & H4 & _).
  repeat split; assumption.
Defined.

End MiddlewareSpec.

(* ===================================================================== *)
(** ** The sign-up page: the strength meter and the submit handler *)
(* ===================================================================== *)

Module SignUpSpec.
Import Eff SignUp.

(** *** The strength meter *)

Lemma test_app (class : ascii -> bool) (a b : string) :
  test class (a ++ b) = test class a || test class b.
Proof.
  induction a as [|c a IH]; simpl; [reflexivity|].
  now rewrite IH, orb_assoc.
Qed.

Lemma length_app (a b : string) :
  String.length (a ++ b) = String.length a + String.length b.
Proof. induction a as [|c a IH]; simpl; [reflexivity | now rewrite IH]. Qed.

Lemma bump_le (c1 c2 : bool) (n m : nat) :
  (c1 = true -> c2 = true) -> n <= m -> bump c1 n <= bump c2 m.
Proof.
  intros Hc Hn. unfold bump.
  destruct c1, c2; try lia; discriminate (Hc eq_refl).
Qed.

Lemma score_le_5 (password : string) : score password <= 5.
Proof.
  unfold score, bump.
  repeat match goal with |- context [if ?b then _ else _] => destruct b end;
    lia.
Qed.

(** The score of a non-empty password is the strength reported. *)
Lemma strength_score (password : string) :
  strength (getPasswordStrength password) = score password.
Proof. destruct password; reflexivity. Qed.

(** A test that holds of a password holds of every extension of it. *)
Ltac grows :=
  intros;
  repeat match goal with
         | H : _ && _ = true |- _ => apply andb_true_iff in H as [? ?]
         | H : Nat.leb _ _ = true |- _ => apply Nat.leb_le in H
         | H : ?x = true |- context [?x] => rewrite H
         end;
  rewrite ?orb_true_r;
  first [reflexivity | apply Nat.leb_le; lia].

Lemma score_app_l (a b : string) : score a <= score (a ++ b).
Proof.
  unfold score. rewrite !test_app, length_app.
  repeat apply bump_le; try lia; grows.
Qed.

Lemma score_app_r (a b : string) : score b <= score (a ++ b).
Proof.
  unfold score. rewrite !test_app, length_app.
  repeat apply bump_le; try lia; grows.
Qed.

(** X1. The reported strength is at most 5, and the label and colour are
    never left undefined: the empty password gets empty ones, every other
    password the entry of the strength map for its strength. *)
Theorem getPasswordStrength_range (password : string) :
  strength (getPasswordStrength password) <= 5 /\
  ((password = "" /\
    getPasswordStrength password =
      {| strength := 0; label := Some ""; color := Some "" |}) \/
   (password <> "" /\
    exists l c,
      strengthMap (strength (getPasswordStrength password)) = Some (l, c) /\
      label (getPasswordStrength password) = Some l /\
      color (getPasswordStrength password) = Some c /\
      l <> "")).
Proof.
  rewrite strength_score. split; [apply score_le_5|].
  destruct password as [|ch rest]; [left; split; reflexivity|].
  right. split; [discriminate|].
  cbn [getPasswordStrength strength label color].
  pose proof (score_le_5 (String ch rest)) as H.
  destruct (score (String ch rest)) as [|[|[|[|[|[|n]]]]]]; try lia;
    (eexists _, _; repeat split; discriminate).
Qed.

(** X2. A password is rated 5 (Very Strong) exactly when it has at least
    12 characters and contains a lower-case letter, an upper-case letter,
    a digit and a character that is none of these. *)
Theorem very_strong_iff (password : string) :
  strength (getPasswordStrength password) = 5 <->
  12 <= String.length password /\
  test is_lower password = true /\
  test is_upper password = true /\
  test is_digit password = true /\
  test is_special password = true.
Proof.
  rewrite strength_score. unfold score, bump.
  destruct (Nat.leb 8 (String.length password)) eqn:E8;
    destruct (Nat.leb 12 (String.length password)) eqn:E12;
    destruct (test is_lower password), (test is_upper password),
      (test is_digit password), (test is_special password);
    first [apply Nat.leb_le in E8 | apply Nat.leb_gt in E8];
    first [apply Nat.leb_le in E12 | apply Nat.leb_gt in E12];
    simpl;
    (split;
     [ intros G; try discriminate G; repeat split; lia
     | intros (G1 & G2 & G3 & G4 & G5);
       try discriminate; try lia; reflexivity ]).
Qed.

Lemma very_strong_iff_witness :
  strength (getPasswordStrength "Tr0ub4dor&horse") = 5.
Proof.
  apply (proj2 (very_strong_iff "Tr0ub4dor&horse")).
  repeat split. simpl. lia.
Defined.

(** X3. A password shorter than 8 characters is rated at most 3 (Good),
    and one of at least 8 characters at least 1 (Weak). *)
Theorem strength_by_length (password : string) :
  (String.length password < 8 ->
   strength (getPasswordStrength password) <= 3) /\
  (8 <= String.length password ->
   1 <= strength (getPasswordStrength password)).
Proof.
  rewrite strength_score. unfold score, bump.
  destruct (Nat.leb 8 (String.length password)) eqn:E8;
    destruct (Nat.leb 12 (String.length password)) eqn:E12;
    destruct (test is_lower password && test is_upper password),
      (test is_digit password), (test is_special password);
    first [apply Nat.leb_le in E8 | apply Nat.leb_gt in E8];
    first [apply Nat.leb_le in E12 | apply Nat.leb_gt in E12];
    split; intros; lia.
Qed.

Lemma strength_by_length_witness :
  strength (getPasswordStrength "aB3$") <= 3 /\
  1 <= strength (getPasswordStrength "abcdefgh").
Proof.
  split.
  - apply (proj1 (strength_by_length "aB3$")). simpl. lia.
  - apply (proj2 (strength_by_length "abcdefgh")). simpl. lia.
Defined.

(** X4. Typing more never lowers the rating: a password rates at least
    as high as each of the two parts it is made of. *)
Theorem strength_monotone (a b : string) :
  strength (getPasswordStrength a) <= strength (getPasswordStrength (a ++ b)) /\
  strength (getPasswordStrength b) <= strength (getPasswordStrength (a ++ b)).
Proof.
  rewrite !strength_score. split; [apply score_app_l | apply score_app_r].
Qed.


(** *** The submit handler *)

Ltac run_submit :=
  unfold args_of, handleSubmit, signUp_email, try_finally, try_catch, bind,
    emit, ret, throw.

(** The two local checks, as propositions. *)
Lemma checks_spec (formData : FormData) :
  (String.eqb (password formData) (confirmPassword formData) = true <->
   password formData = confirmPassword formData) /\
  (Nat.ltb (String.length (password formData)) 8 = true <->
   String.length (password formData) < 8).
Proof. split; [apply String.eqb_eq | apply Nat.ltb_lt]. Qed.

Lemma handleSubmit_short_run (env : Env) (formData : FormData) :
  password formData = confirmPassword formData ->
  String.length (password formData) < 8 ->
  handleSubmit env formData =
    ([ PreventDefault; SetIsLoading true;
       ToastError "Password must be at least 8 characters long";
       SetIsLoading false ],
     inr tt).
Proof.
  intros H L. apply String.eqb_eq in H. apply Nat.ltb_lt in L.
  run_submit. now rewrite H, L.
Qed.

Lemma signUp_calls_sent (env : Env) (formData : FormData) :
  password formData = confirmPassword formData ->
  8 <= String.length (password formData) ->
  signUp_calls (trace (handleSubmit env formData)) = [args_of formData].
Proof.
  intros H L. apply String.eqb_eq in H. apply Nat.ltb_ge in L.
  run_submit. rewrite H, L. cbn [negb].
  destruct (authClient_signUp_email env _); reflexivity.
Qed.

(** X6. When the two passwords differ, or are equal but shorter than 8
    characters, the handler shows the one error toast that names the
    reason, resets the loading flag and sends nothing to the server. *)
Theorem handleSubmit_rejects_locally (env : Env) (formData : FormData) :
  (password formData <> confirmPassword formData ->
   handleSubmit env formData =
     ([ PreventDefault; SetIsLoading true;
        ToastError "Passwords do not match"; SetIsLoading false ],
      inr tt)) /\
  (password formData = confirmPassword formData ->
   String.length (password formData) < 8 ->
   handleSubmit env formData =
     ([ PreventDefault; SetIsLoading true;
        ToastError "Password must be at least 8 characters long";
        SetIsLoading false ],
      inr tt)).
Proof.
  split.
  - intros H. apply String.eqb_neq in H. run_submit. now rewrite H.
  - apply handleSubmit_short_run.
Qed.

Lemma handleSubmit_rejects_locally_witness :
  signUp_calls
    (trace (handleSubmit {| authClient_signUp_email := fun _ => Succeeded |}
              {| name := ""; email := "a@b.c"; password := "secret12";
                 confirmPassword := "secret13" |})) = [] /\
  signUp_calls
    (trace (handleSubmit {| authClient_signUp_email := fun _ => Succeeded |}
              {| name := ""; email := "a@b.c"; password := "short";
                 confirmPassword := "short" |})) = [].
Proof.
  split.
  - rewrite (proj1 (handleSubmit_rejects_locally
                      {| authClient_signUp_email := fun _ => Succeeded |}
                      {| name := ""; email := "a@b.c";
                         password := "secret12";
                         confirmPassword := "secret13" |}));
      [reflexivity | discriminate].
  - rewrite (proj2 (handleSubmit_rejects_locally
                      {| authClient_signUp_email := fun _ => Succeeded |}
                      {| name := ""; email := "a@b.c"; password := "short";
                         confirmPassword := "short" |}));
      [reflexivity | reflexivity | simpl; lia].
Defined.

(** X7. Whatever the form holds and however the sign-up call ends, the
    handler does not throw, begins by preventing the default submit and
    setting the loading flag, and ends by clearing it; the flag is not
    touched in between. *)
Theorem handleSubmit_resets_loading (env : Env) (formData : FormData) :
  exists middle,
    handleSubmit env formData =
      ((PreventDefault :: SetIsLoading true :: middle)
         ++ [SetIsLoading false], inr tt)%list /\
    forall b, ~ In (SetIsLoading b) middle.
Proof.
  run_submit.
  destruct (String.eqb (password formData) (confirmPassword formData));
    cbn [negb].
  - destruct (Nat.ltb (String.length (password formData)) 8).
    + exists [ToastError "Password must be at least 8 characters long"].
      split; [reflexivity|]. intros b; cbn [In]; intuition discriminate.
    + destruct (authClient_signUp_email env _) as [|m|err] eqn:E.
      * eexists [SignUpEmail _; ToastSuccess _; RouterPush _].
        split; [reflexivity|]. intros b; cbn [In]; intuition discriminate.
      * eexists [SignUpEmail _; ToastError _].
        split; [reflexivity|]. intros b; cbn [In]; intuition discriminate.
      * eexists [SignUpEmail _; ConsoleError _ _; ToastError _].
        split; [reflexivity|]. intros b; cbn [In]; intuition discriminate.
  - exists [ToastError "Passwords do not match"].
    split; [reflexivity|]. intros b; cbn [In]; intuition discriminate.
Qed.

(** X8. The sign-up request is sent exactly when the two passwords are
    equal and have at least 8 characters, and then once, with the form's
    email and password and the name derived from the email. *)
Theorem signUp_called_iff (env : Env) (formData : FormData) :
  (password formData = confirmPassword formData /\
   8 <= String.length (password formData) /\
   signUp_calls (trace (handleSubmit env formData)) = [args_of formData]) \/
  ((password formData <> confirmPassword formData \/
    String.length (password formData) < 8) /\
   signUp_calls (trace (handleSubmit env formData)) = []).
Proof.
  run_submit.
  destruct (String.eqb_spec (password formData) (confirmPassword formData))
    as [He|He]; cbn [negb]; [|right; split; [left; exact He | reflexivity]].
  destruct (Nat.ltb_spec (String.length (password formData)) 8) as [Hl|Hl];
    [right; split; [right; exact Hl | reflexivity]|].
  left. split; [exact He|]. split; [exact Hl|].
  destruct (authClient_signUp_email env _); reflexivity.
Qed.

(** X9. The name sent with the request is never empty and contains no
    [@]: it is the part of the email before its first [@], or ["User"]
    when the email is empty or starts with [@]. *)
Theorem signUp_name (mail : string) :
  let n := or_else (before_at mail) "User" in
  n <> "" /\
  test (Ascii.eqb "@") n = false /\
  ((exists rest, mail = n ++ rest /\
                 (rest = "" \/ exists r, rest = "@" ++ r)) \/
   (n = "User" /\ (mail = "" \/ exists r, mail = "@" ++ r))).
Proof.
  cbv zeta.
  assert (test (Ascii.eqb "@") (before_at mail) = false) as Hno.
  { induction mail as [|c mail IH]; cbn [before_at test]; [reflexivity|].
    destruct (Ascii.eqb c "@") eqn:E; [reflexivity|].
    cbn [test]. now rewrite IH, Ascii.eqb_sym, E. }
  assert (exists rest, mail = before_at mail ++ rest /\
                       (rest = "" \/ exists r, rest = "@" ++ r)) as Hsplit.
  { clear Hno. induction mail as [|c mail IH]; cbn [before_at].
    - exists "". split; [reflexivity | now left].
    - destruct (Ascii.eqb c "@") eqn:E.
      + apply Ascii.eqb_eq in E; subst c.
        exists (String "@" mail). split; [reflexivity|]. right. now exists mail.
      + destruct IH as (rest & H1 & H2). exists rest.
        split; [simpl; now rewrite <- H1 | exact H2]. }
  destruct (before_at mail) as [|c n] eqn:En; cbn [or_else].
  - split; [discriminate|]. split; [reflexivity|]. right.
    split; [reflexivity|].
    destruct Hsplit as (rest & H1 & [H2|H2]); simpl in H1; subst; auto.
  - split; [discriminate|]. split; [exact Hno|]. now left.
Qed.

(** X10. The page navigates to the login page, with the notice to
    verify the email, exactly when the form passed both checks and the
    sign-up call succeeded; it navigates nowhere else. *)
Theorem navigates_iff_success (env : Env) (formData : FormData)
  (href : string) :
  In (RouterPush href) (trace (handleSubmit env formData)) <->
  href = "/auth/login?success=Please verify your email to continue" /\
  password formData = confirmPassword formData /\
  8 <= String.length (password formData) /\
  authClient_signUp_email env (args_of formData) = Succeeded.
Proof.
  run_submit.
  destruct (String.eqb_spec (password formData) (confirmPassword formData))
    as [He|He]; cbn [negb].
  - destruct (Nat.ltb_spec (String.length (password formData)) 8) as [Hl|Hl].
    + split; [cbn [trace fst app In]; intuition discriminate|].
      intros (_ & _ & H & _). lia.
    + destruct (authClient_signUp_email env _);
        cbn [trace fst app In]; split.
      * intros H. repeat (destruct H as [H|H]; try discriminate H).
        -- inversion H. auto.
        -- destruct H.
      * intros (-> & _). auto 10.
      * intuition discriminate.
      * intros (_ & _ & _ & H). discriminate H.
      * intuition discriminate.
      * intros (_ & _ & _ & H). discriminate H.
  - split; [cbn [trace fst app In]; intuition discriminate|].
    intros (_ & H & _). contradiction.
Qed.

Lemma navigates_iff_success_witness :
  In (RouterPush "/auth/login?success=Please verify your email to continue")
     (trace (handleSubmit {| authClient_signUp_email := fun _ => Succeeded |}
               {| name := ""; email := "ada@example.com";
                  password := "correct horse";
                  confirmPassword := "correct horse" |})).
Proof.
  apply (proj2 (navigates_iff_success
                  {| authClient_signUp_email := fun _ => Succeeded |}
                  {| name := ""; email := "ada@example.com";
                     password := "correct horse";
                     confirmPassword := "correct horse" |}
                  "/auth/login?success=Please verify your email to continue")).
  repeat split. simpl. lia.
Defined.

(** X11. With the submit button enabled, the form is not loading, the
    email has a character that is not white space, and the two passwords
    are equal and not empty; submitting then either reports a password
    shorter than 8 characters or sends exactly one sign-up request. *)
Theorem enabled_submit (env : Env) (isLoading : bool)
  (formData : FormData) :
  submit_disabled isLoading formData = false ->
  isLoading = false /\
  trim (email formData) <> "" /\
  password formData <> "" /\
  password formData = confirmPassword formData /\
  ((String.length (password formData) < 8 /\
    handleSubmit env formData =
      ([ PreventDefault; SetIsLoading true;
         ToastError "Password must be at least 8 characters long";
         SetIsLoading false ],
       inr tt)) \/
   (8 <= String.length (password formData) /\
    signUp_calls (trace (handleSubmit env formData)) = [args_of formData])).
Proof.
  unfold submit_disabled. intros H.
  repeat (apply orb_false_iff in H; destruct H as [H ?]).
  match goal with
  | E : negb _ = false |- _ =>
      apply negb_false_iff, String.eqb_eq in E; rename E into He
  end.
  split; [exact H|].
  split; [destruct (trim (email formData)); [discriminate | discriminate]|].
  split; [destruct (password formData); [discriminate | discriminate]|].
  split; [exact He|].
  destruct (Nat.lt_ge_cases (String.length (password formData)) 8) as [L|L].
  - left. split; [exact L|]. now apply handleSubmit_short_run.
  - right. split; [exact L|]. now apply signUp_calls_sent.
Qed.

Lemma enabled_submit_witness :
  signUp_calls
    (trace (handleSubmit {| authClient_signUp_email := fun _ => Failed None |}
              {| name := ""; email := " ada@example.com ";
                 password := "correct horse";
                 confirmPassword := "correct horse" |})) =
    [ {| arg_email := " ada@example.com ";
         arg_password := "correct horse";
         arg_name := " ada" |} ].
Proof.
  destruct (enabled_submit
              {| authClient_signUp_email := fun _ => Failed None |} false
              {| name := ""; email := " ada@example.com ";
                 password := "correct horse";
                 confirmPassword := "correct horse" |} eq_refl)
    as (_ & _ & _ & _ & [(L & _)|(_ & H)]).
  - simpl in L. lia.
  - exact H.
Defined.

End SignUpSpec.

(* ===================================================================== *)
(** ** The chat route: every response, and the way to the model *)
(* ===================================================================== *)

Module RouteMore.
Import Json Eff Route Answers.

Ltac answered := eexists _, _; split; [reflexivity | constructor; reflexivity].

(** Every run of the handler ends in one of the four responses. *)
Lemma POST_cases (env : Env) (req : Request) :
  exists t r, POST env req = (t, inr r) /\ answer req t r.
Proof.
  RouteSpec.run_POST.
  destruct (auth_api_getSession env (headers req)) as [session|e];
    [|destruct e; answered].
  destruct (session_user session) as [u|]; [|answered].
  destruct (JSON_parse env (body req)) as [b|]; [|answered].
  destruct (Zod.parse requestSchema b) as [errors|p] eqn:Hz.
  { destruct b; simpl; rewrite ?Hz; answered. }
  destruct (convertToModelMessages env (messages p)) as [ms|e] eqn:Hc.
  - destruct b; simpl; rewrite ?Hz; simpl; rewrite ?Hc; answered.
  - destruct e, b; simpl; rewrite ?Hz; simpl; rewrite ?Hc; answered.
Qed.

(** X12. The handler never throws: every request is answered, with
    status 200, 400, 401 or 500; the model is called exactly once when
    the status is 200 and not at all otherwise. *)
Theorem POST_always_answers (env : Env) (req : Request) :
  exists r,
    result (POST env req) = inr r /\
    In (Response.status r) [200; 400; 401; 500] /\
    (Response.status r = 200 <-> model_calls (trace (POST env req)) = 1) /\
    (Response.status r <> 200 <-> model_calls (trace (POST env req)) = 0).
Proof.
  destruct (POST_cases env req) as (t & r & E & A). rewrite E.
  exists r. split; [reflexivity|]. cbn [trace fst].
  destruct A as [H|H|errors H|call H _ _ _]; cbn [Response.status In];
    try (unfold model_calls; rewrite H; cbn [length]);
    try rewrite H;
    repeat split; auto; try discriminate; try (intros; discriminate);
    try (intros G; now destruct G).
Qed.

(** X13. Every call the handler makes to the model names the model
    [anthropic/claude-sonnet-4.5], passes the whole tool registry and the
    request's abort signal, carries the system prompt composed from the
    validated [currentFile], and is the call whose stream is returned
    with status 200. *)
Theorem model_call_contents (env : Env) (req : Request)
  (call : StreamTextCall) :
  In (StreamText call) (trace (POST env req)) ->
  model call = "anthropic/claude-sonnet-4.5" /\
  call_tools call = tools /\
  abortSignal call = signal req /\
  (exists b p,
     JSON_parse env (body req) = Some b /\
     Zod.parse requestSchema b = inr p /\
     system call = systemPrompt (currentFile p) /\
     convertToModelMessages env (messages p)
       = Returned (model_messages call)) /\
  result (POST env req) = inr (toUIMessageStreamResponse call).
Proof.
  intros Hin.
  assert (In (StreamText call) (filter is_model_call (trace (POST env req))))
    as Hf by (apply filter_In; split; [exact Hin | reflexivity]).
  assert (model_call_of (trace (POST env req)) = Some call /\
          model call = "anthropic/claude-sonnet-4.5" /\
          call_tools call = tools /\
          abortSignal call = signal req /\
          result (POST env req) = inr (toUIMessageStreamResponse call))
    as (Hm & H1 & H2 & H3 & H4).
  { unfold model_call_of.
    destruct (POST_cases env req) as (t & r & E & A). rewrite E in *.
    cbn [trace fst result snd] in *.
    destruct A as [H|H|errors H|c H G1 G2 G3];
      try (unfold model_calls in H; apply length_zero_iff_nil in H;
           rewrite H in Hf; destruct Hf).
    rewrite H in *. destruct Hf as [Hf|[]]. inversion Hf; subst c.
    repeat split; assumption. }
  repeat split; try assumption.
  destruct (RouteSpec.model_call_system env req call Hm)
    as (b & p & J & Z & S).
  exists b, p. repeat split; try assumption.
  revert Hm. unfold model_call_of. RouteSpec.run_POST.
  destruct (auth_api_getSession env (headers req)) as [session|e];
    [|destruct e; intros H; simpl in H; discriminate H].
  destruct (session_user session) as [u|];
    [|intros H; simpl in H; discriminate H].
  rewrite J.
  destruct (convertToModelMessages env (messages p)) as [ms|e] eqn:Hc;
    [|destruct e]; intros H;
    destruct b; simpl in H; rewrite ?Z in H; simpl in H;
    rewrite ?Hc in H; simpl in H; try discriminate H;
    now inversion H.
Qed.

Lemma model_call_contents_witness :
  exists call,
    In (StreamText call)
       (trace (POST Sample.env (Sample.signed_in Sample.body_with_file))) /\
    call_tools call = tools /\
    system call =
      systemPrompt (Some (CurrentFile.mk "/src/a.ts" "function f(){}")).
Proof.
  eexists. split.
  - cbn. do 5 right. left. reflexivity.
  - split; [|reflexivity].
    refine (proj1 (proj2 (model_call_contents Sample.env
              (Sample.signed_in Sample.body_with_file) _ _))).
    cbn. do 5 right. left. reflexivity.
Defined.

(** X14. A request with a valid session, whose body is JSON that passes
    the schema and whose messages convert, is answered with status 200
    and the stream of one model call made of the composed prompt, the
    converted messages, the registry and the request's abort signal. *)
Theorem POST_streams (env : Env) (req : Request)
  (session : option Session) (u : User) (b : json) (p : ChatRequest)
  (ms : list ModelMessage) :
  auth_api_getSession env (headers req) = Returned session ->
  session_user session = Some u ->
  JSON_parse env (body req) = Some b ->
  Zod.parse requestSchema b = inr p ->
  convertToModelMessages env (messages p) = Returned ms ->
  let call := {| model := "anthropic/claude-sonnet-4.5";
                 system := systemPrompt (currentFile p);
                 model_messages := ms;
                 call_tools := tools;
                 abortSignal := signal req |} in
  result (POST env req) =
    inr (Response.mk (BUIMessageStream call) 200 []) /\
  filter is_model_call (trace (POST env req)) = [StreamText call].
Proof.
  intros Hs Hu Hb Hz Hc call. subst call.
  RouteSpec.run_POST. rewrite Hs, Hu, Hb.
  destruct b; try discriminate Hz;
    simpl; rewrite Hz; simpl; rewrite Hc; split; reflexivity.
Qed.

Lemma POST_streams_witness :
  exists call,
    result (POST Sample.env (Sample.signed_in Sample.body_with_file)) =
      inr (Response.mk (BUIMessageStream call) 200 []) /\
    model_messages call = [].
Proof.
  eexists. split; [|shelve].
  refine (proj1 (POST_streams Sample.env
            (Sample.signed_in Sample.body_with_file)
            (Some Sample.alice) {| user_id := "alice" |} _ _ []
            eq_refl eq_refl eq_refl eq_refl eq_refl)).
  Unshelve. reflexivity.
Defined.

(** *** What the schemas accept *)

Lemma ap_inr_inv {A B} (f : Zod.zres (A -> B)) (x : Zod.zres A) (y : B) :
  f <*> x = inr y -> exists g a, f = inr g /\ x = inr a /\ y = g a.
Proof.
  destruct f as [i|g], x as [j|a]; simpl; intros H; try discriminate H.
  inversion H. now exists g, a.
Qed.

Lemma z_string_inv (p : list Zod.pathseg) (v : jsval) (s : string) :
  Zod.z_string p v = inr s <-> v = Some (JStr s).
Proof.
  split.
  - destruct v as [[]|]; simpl; intros H; try discriminate H.
    now inversion H.
  - intros ->. reflexivity.
Qed.

Lemma parse_items_any (p : list Zod.pathseg) (i : nat) (items : list json) :
  Zod.parse_items Zod.z_any p i items = inr (map Some items).
Proof.
  revert i; induction items as [|x items IH]; intros i; simpl;
    [reflexivity | now rewrite IH].
Qed.

Lemma z_array_any_inv (p : list Zod.pathseg) (v : jsval) (ms : list jsval) :
  Zod.z_array Zod.z_any p v = inr ms <->
  exists items, v = Some (JArr items) /\ ms = map Some items.
Proof.
  split.
  - destruct v as [[]|]; simpl; intros H; try discriminate H.
    rewrite parse_items_any in H. inversion H. eauto.
  - intros (items & -> & ->). simpl. apply parse_items_any.
Qed.

(** X15. The request schema accepts exactly the JSON objects whose
    [messages] is an array and whose [currentFile] is either absent or an
    object with a string [path] and a string [content]; the parsed
    request holds the array's items in order and these two strings, and
    nothing of any other key. *)
Theorem requestSchema_accepts (b : json) (r : ChatRequest) :
  Zod.parse requestSchema b = inr r <->
  exists o items,
    b = JObj o /\
    get_field "messages" o = Some (JArr items) /\
    messages r = map Some items /\
    ((get_field "currentFile" o = None /\ currentFile r = None) \/
     (exists c path content,
        get_field "currentFile" o = Some (JObj c) /\
        get_field "path" c = Some (JStr path) /\
        get_field "content" c = Some (JStr content) /\
        currentFile r = Some (CurrentFile.mk path content))).
Proof.
  unfold Zod.parse, requestSchema, Zod.z_object. split.
  - destruct b as [| | | | |o]; try discriminate.
    unfold Zod.field. cbn [app]. intros H.
    apply ap_inr_inv in H as (g & cf & H & Hcf & ->).
    apply ap_inr_inv in H as (g' & ms & H & Hms & ->).
    inversion H; subst g'. clear H.
    apply z_array_any_inv in Hms as (items & Hm & ->).
    exists o, items. split; [reflexivity|]. split; [exact Hm|].
    split; [reflexivity|]. cbn [currentFile].
    unfold Zod.z_optional in Hcf.
    destruct (get_field "currentFile" o) as [v|]; [|left; now inversion Hcf].
    right. apply ap_inr_inv in Hcf as (g & x & Hg & Hx & ->).
    inversion Hg; subst g. clear Hg.
    destruct v as [| | | | |c]; try discriminate Hx.
    cbn [app] in Hx.
    apply ap_inr_inv in Hx as (g & content & H & Hc & ->).
    apply ap_inr_inv in H as (g' & path & H & Hp & ->).
    inversion H; subst g'. clear H.
    apply z_string_inv in Hc, Hp.
    exists c, path, content. auto.
  - intros (o & items & -> & Hm & Hms & Hcf).
    destruct r as [ms cf]. cbn [messages currentFile] in *. subst ms.
    unfold Zod.field. cbn [app]. rewrite Hm.
    cbn [Zod.z_array]. rewrite parse_items_any.
    destruct Hcf as [(Hn & ->)|(c & path & content & Hc & Hp & Hct & ->)].
    + rewrite Hn. reflexivity.
    + rewrite Hc. cbn [Zod.z_optional app]. rewrite Hp, Hct. reflexivity.
Qed.

Lemma requestSchema_accepts_witness :
  exists r,
    Zod.parse requestSchema
      (JObj [("messages", JArr [JStr "hi"]); ("extra", JBool true)])
      = inr r /\
    messages r = [Some (JStr "hi")] /\ currentFile r = None.
Proof.
  exists {| messages := [Some (JStr "hi")]; currentFile := None |}.
  split; [|split; reflexivity].
  apply (proj2 (requestSchema_accepts _ _)).
  eexists _, [JStr "hi"]. split; [reflexivity|].
  split; [reflexivity|]. split; [reflexivity|]. left. split; reflexivity.
Defined.

(** X16. The input schema of [editFileWithPatch] accepts exactly the
    JSON objects with string [path], [diff] and [explanation]; on what it
    accepts, the executor returns the pending proposal with these three
    strings as they were in the JSON. *)
Theorem editFileWithPatch_accepts (args : json) (i : PatchInput.t) :
  (Zod.parse (inputSchema editFileWithPatch) args = inr i <->
   exists o,
     args = JObj o /\
     get_field "path" o = Some (JStr (PatchInput.path i)) /\
     get_field "diff" o = Some (JStr (PatchInput.diff i)) /\
     get_field "explanation" o = Some (JStr (PatchInput.explanation i))) /\
  (forall o, args = JObj o ->
     Zod.parse (inputSchema editFileWithPatch) args = inr i ->
     exists proposal,
       editFileWithPatch_execute i = ([], inr proposal) /\
       PatchProposal.status proposal = "pending_approval" /\
       get_field "path" o = Some (JStr (PatchProposal.path proposal)) /\
       get_field "diff" o = Some (JStr (PatchProposal.diff proposal)) /\
       get_field "explanation" o
         = Some (JStr (PatchProposal.explanation proposal))).
Proof.
  assert (Zod.parse (inputSchema editFileWithPatch) args = inr i <->
          exists o,
            args = JObj o /\
            get_field "path" o = Some (JStr (PatchInput.path i)) /\
            get_field "diff" o = Some (JStr (PatchInput.diff i)) /\
            get_field "explanation" o
              = Some (JStr (PatchInput.explanation i))) as Hiff.
  { unfold Zod.parse, editFileWithPatch. cbn [inputSchema].
    unfold Zod.z_object, Zod.field, Zod.z_describe. split.
    - destruct args as [| | | | |o]; try discriminate.
      cbn [app]. intros H.
      apply ap_inr_inv in H as (g & e & H & He & ->).
      apply ap_inr_inv in H as (g' & d & H & Hd & ->).
      apply ap_inr_inv in H as (g'' & q & H & Hq & ->).
      inversion H; subst g''. clear H.
      apply z_string_inv in He, Hd, Hq. exists o. auto.
    - intros (o & -> & Hp & Hd & He). destruct i as [q d e].
      cbn [PatchInput.path PatchInput.diff PatchInput.explanation] in *.
      cbn [app]. rewrite Hp, Hd, He. reflexivity. }
  split; [exact Hiff|].
  intros o -> H. apply Hiff in H as (o' & Ho & Hp & Hd & He).
  inversion Ho; subst o'.
  eexists. split; [reflexivity|]. repeat split; assumption.
Qed.

Lemma editFileWithPatch_accepts_witness :
  Zod.parse (inputSchema editFileWithPatch)
    (JObj [("path", JStr "/src/a.ts"); ("diff", JStr "--- /src/a.ts");
           ("explanation", JStr "add a log"); ("force", JBool true)])
    = inr (PatchInput.mk "/src/a.ts" "--- /src/a.ts" "add a log").
Proof.
  apply (proj2 (proj1 (editFileWithPatch_accepts _ _))).
  eexists. repeat split.
Defined.

(** *** The order of the handler's calls *)

Ltac no_second_lookup :=
  eexists; split; [reflexivity|]; split;
  [ intros h; cbn [In app]; intuition discriminate | ].

(** X17. The session lookup is the first thing the handler does, with
    the request's own headers, and it is made once; the body is read at
    most once, and only when the lookup returned a session with a
    user. *)
Theorem session_checked_first (env : Env) (req : Request) :
  exists rest,
    trace (POST env req) = Io (AuthGetSession (headers req)) :: rest /\
    (forall h, ~ In (Io (AuthGetSession h)) rest) /\
    (body_reads rest = [] \/
     (body_reads rest = [body req] /\
      exists session u,
        auth_api_getSession env (headers req) = Returned session /\
        session_user session = Some u)).
Proof.
  RouteSpec.run_POST.
  destruct (auth_api_getSession env (headers req)) as [session|e] eqn:Hs;
    [|destruct e; no_second_lookup; left; reflexivity].
  destruct (session_user session) as [u|] eqn:Hu;
    [|no_second_lookup; left; reflexivity].
  assert (exists s' u',
             Returned (X:=exn) session = Returned s' /\
             session_user s' = Some u') as Hv by eauto.
  destruct (JSON_parse env (body req)) as [b|];
    [|no_second_lookup; right; split; [reflexivity | exact Hv]].
  destruct (Zod.parse requestSchema b) as [errors|p] eqn:Hz.
  { destruct b; simpl; rewrite ?Hz; no_second_lookup;
      right; (split; [reflexivity | exact Hv]). }
  destruct (convertToModelMessages env (messages p)) as [ms|e] eqn:Hc;
    [|destruct e];
    destruct b; simpl; rewrite ?Hz; simpl; rewrite ?Hc; no_second_lookup;
    right; (split; [reflexivity | exact Hv]).
Qed.

(** X18. When the session lookup itself throws, the body is not read
    and the model is not called; the answer is 500 with the plain text,
    unless what was thrown is a [ZodError], which is answered like an
    invalid body with 400.  The same holds when the messages of a
    validated request fail to convert. *)
Theorem library_failure (env : Env) (req : Request) (e : exn) :
  let failed :=
    match instanceof_ZodError e with
    | Some errors =>
        Response.mk (BJsonStringify (invalid_request errors)) 400
          [("Content-Type", "application/json")]
    | None => Response.mk (BText "Internal Server Error") 500 []
    end in
  (auth_api_getSession env (headers req) = Threw e ->
   result (POST env req) = inr failed /\
   body_reads (trace (POST env req)) = [] /\
   model_calls (trace (POST env req)) = 0) /\
  (forall session u b p,
     auth_api_getSession env (headers req) = Returned session ->
     session_user session = Some u ->
     JSON_parse env (body req) = Some b ->
     Zod.parse requestSchema b = inr p ->
     convertToModelMessages env (messages p) = Threw e ->
     result (POST env req) = inr failed /\
     model_calls (trace (POST env req)) = 0).
Proof.
  cbv zeta. split.
  - intros Hs. RouteSpec.run_POST. rewrite Hs.
    destruct e; repeat split.
  - intros session u b p Hs Hu Hb Hz Hc.
    RouteSpec.run_POST. rewrite Hs, Hu, Hb.
    destruct b; try discriminate Hz;
      simpl; rewrite Hz; simpl; rewrite Hc; destruct e; repeat split.
Qed.

Lemma library_failure_witness :
  result
    (POST {| auth_api_getSession := fun _ => Threw (OtherError "db down");
             JSON_parse := Sample.JSON_parse;
             convertToModelMessages := Sample.convertToModelMessages |}
          (Sample.signed_in "{}")) =
    inr (Response.mk (BText "Internal Server Error") 500 []).
Proof.
  apply (proj1 (library_failure
                  {| auth_api_getSession :=
                       fun _ => Threw (OtherError "db down");
                     JSON_parse := Sample.JSON_parse;
                     convertToModelMessages :=
                       Sample.convertToModelMessages |}
                  (Sample.signed_in "{}") (OtherError "db down"))).
  reflexivity.
Defined.

End RouteMore.

(* ===================================================================== *)
(** ** The middleware: which paths it guards *)
(* ===================================================================== *)

Module MiddlewareMore.
Import Json Eff Middleware Paths.

Lemma dot_star_all (s : string) :
  all_dot s = true -> dot_star is_empty s = true.
Proof.
  induction s as [|c s IH]; simpl; [reflexivity|].
  intros H. apply andb_true_iff in H as [Hc H]. now rewrite Hc, IH.
Qed.

Lemma dot_star_inv (k : string -> bool) (s : string) :
  dot_star k s = true ->
  exists a b, s = a ++ b /\ all_dot a = true /\ k b = true.
Proof.
  induction s as [|c s IH]; simpl; intros H.
  - rewrite orb_false_r in H. now exists "", "".
  - apply orb_true_iff in H as [H|H].
    + now exists "", (String c s).
    + apply andb_true_iff in H as [Hc H].
      destruct (IH H) as (a & b & -> & Ha & Hk).
      exists (String c a), b. simpl. now rewrite Hc, Ha.
Qed.

(** What follows [.*] in the lookahead matches only a dot and one of
    the six extensions, up to the end. *)
Lemma extension_only (b : string) :
  matches (Seq (Lit ".") (Seq image_extension EndOfInput)) b (fun _ => true)
    = true ->
  exists ext, In ext image_extensions /\ b = "." ++ ext.
Proof.
  cbn [matches]. destruct (Str.strip_prefix "." b) as [r|] eqn:E;
    [|discriminate].
  apply StrFacts.strip_prefix_sound in E. subst b.
  unfold image_extension, image_extensions. cbn [matches In].
  intros H.
  repeat (apply orb_true_iff in H as [H|H]);
    match type of H with
    | match Str.strip_prefix ?e r with _ => _ end = true =>
        destruct (Str.strip_prefix e r) as [[|]|] eqn:E;
        try discriminate H;
        apply StrFacts.strip_prefix_sound in E; subst r;
        exists e; intuition
    end.
Qed.

(** The lookahead succeeds only on what [asset_like] describes. *)
Lemma lookahead_complete (rest : string) :
  matches excluded rest (fun _ => true) = true -> asset_like rest.
Proof.
  unfold excluded, asset_like. cbn [matches]. intros H.
  apply orb_true_iff in H as [H|H]; [left; exact H|].
  apply orb_true_iff in H as [H|H]; [right; left; exact H|].
  apply orb_true_iff in H as [H|H]; right; right.
  - left. destruct (Str.strip_prefix "favicon" rest) as [[|c r]|] eqn:E;
      try discriminate H.
    apply andb_true_iff in H as [_ H].
    destruct (Str.strip_prefix "ico" r) as [tail|] eqn:E'; [|discriminate H].
    apply StrFacts.strip_prefix_sound in E, E'. subst. now exists c, tail.
  - right. apply dot_star_inv in H as (a & b & -> & _ & H).
    apply extension_only in H as (ext & Hext & ->).
    exists ext. split; [exact Hext | now exists a].
Qed.

(** On a path without line terminators, the lookahead succeeds on
    everything [asset_like] describes. *)
Lemma lookahead_sound (rest : string) :
  all_dot rest = true -> asset_like rest ->
  matches excluded rest (fun _ => true) = true.
Proof.
  unfold asset_like. intros Hd [H|[H|[(c & tail & ->)|(ext & Hext & a & ->)]]].
  - apply StrFacts.startsWith_spec in H as [r ->]. reflexivity.
  - apply StrFacts.startsWith_spec in H as [r ->]. reflexivity.
  - cbn in Hd. apply andb_true_iff in Hd as [Hc _].
    unfold excluded. cbn [matches]. cbn. rewrite Hc. reflexivity.
  - unfold excluded. cbn [matches].
    rewrite (MiddlewareSpec.dot_star_app _ a ("." ++ ext)
               (MiddlewareSpec.all_dot_app _ _ Hd)
               (MiddlewareSpec.extension_at_end ext Hext)).
    now rewrite !orb_true_r.
Qed.

(** A path without line terminators that is not asset-like is matched. *)
Lemma page_matched (rest : string) :
  all_dot rest = true -> ~ asset_like rest ->
  config_matches ("/" ++ rest) = true.
Proof.
  intros Hd Hn. unfold config_matches, matcher. cbn [matches].
  rewrite (StrFacts.strip_prefix_append "/" rest).
  rewrite (dot_star_all rest Hd), andb_true_r.
  destruct (matches excluded rest (fun _ => true)) eqn:E; [|reflexivity].
  destruct (Hn (lookahead_complete rest E)).
Qed.

(** X19. The matcher matches exactly the paths that start with a slash,
    hold no line terminator, and are not asset-like after the slash: such
    as [/_next/static...], [/_next/image...], [/favicon.ico...], or a
    path ending in one of the six image extensions.  On every other path
    the middleware runs. *)
Theorem matcher_spec (pathname : string) :
  config_matches pathname = true <->
  exists rest,
    pathname = "/" ++ rest /\ all_dot rest = true /\ ~ asset_like rest.
Proof.
  unfold config_matches, matcher. cbn [matches]. split.
  - destruct (Str.strip_prefix "/" pathname) as [rest|] eqn:E;
      [|discriminate].
    apply StrFacts.strip_prefix_sound in E. intros H.
    apply andb_true_iff in H as [Hl Hd].
    apply MiddlewareSpec.dot_star_to_end in Hd.
    exists rest. split; [exact E|]. split; [exact Hd|].
    intros A. rewrite (lookahead_sound rest Hd A) in Hl. discriminate Hl.
  - intros (rest & -> & Hd & Hn). now apply page_matched.
Qed.

Lemma not_asset_like_dashboard : ~ asset_like "dashboard".
Proof.
  intros A.
  pose proof (lookahead_sound "dashboard" eq_refl A) as H.
  discriminate H.
Qed.

Lemma matcher_spec_witness : config_matches "/dashboard" = true.
Proof.
  apply (proj2 (matcher_spec "/dashboard")).
  exists "dashboard". split; [reflexivity|]. split; [reflexivity|].
  exact not_asset_like_dashboard.
Defined.

(** X20. As the framework routes it: a request for a path that the
    matcher does not leave out and that is neither an authentication page
    nor an API route, with no session, is answered by the redirect to the
    login page, after exactly one session lookup. *)
Theorem protected_page_redirects (env : Env) (request : NextRequest)
  (rest : string) :
  pathname (nextUrl request) = "/" ++ rest ->
  all_dot rest = true ->
  ~ asset_like rest ->
  is_public (pathname (nextUrl request)) = false ->
  truthy
    (data (betterFetch env "/api/auth/get-session" (origin (nextUrl request))
             [("cookie", or_empty (headers_get "cookie" (headers request)))]))
    = false ->
  handle env request =
    ([ BetterFetch "/api/auth/get-session" (origin (nextUrl request))
         [("cookie", or_empty (headers_get "cookie" (headers request)))] ],
     inr (Some (redirect
                  {| origin := origin (url request);
                     pathname := "/auth/login";
                     searchParams :=
                       [("redirect", pathname (nextUrl request))] |}))).
Proof.
  intros Hp Hd Hn Hpub Hs.
  assert (config_matches (pathname (nextUrl request)) = true) as Hm
    by (rewrite Hp; now apply page_matched).
  unfold handle. rewrite Hm.
  unfold middleware, fetch_session, bind, emit, ret.
  rewrite Hpub. cbv zeta. rewrite Hs. reflexivity.
Qed.

Lemma protected_page_redirects_witness :
  handle Sample.mw_env (Sample.page "/dashboard" [("theme", "dark")]) =
    ([ BetterFetch "/api/auth/get-session" "http://localhost:3000"
         [("cookie", "")] ],
     inr (Some (redirect
                  {| origin := "http://localhost:3000";
                     pathname := "/auth/login";
                     searchParams := [("redirect", "/dashboard")] |}))).
Proof.
  apply (protected_page_redirects Sample.mw_env
           (Sample.page "/dashboard" [("theme", "dark")]) "dashboard");
    try reflexivity.
  exact not_asset_like_dashboard.
Defined.

(** X21. On a path that is not public, a request whose session lookup
    yields data is passed on; the one lookup goes to
    [/api/auth/get-session] on the request's own origin and forwards only
    the cookie header, as the empty string when there is none. *)
Theorem authenticated_passes (env : Env) (request : NextRequest) :
  is_public (pathname (nextUrl request)) = false ->
  truthy
    (data (betterFetch env "/api/auth/get-session" (origin (nextUrl request))
             [("cookie", or_empty (headers_get "cookie" (headers request)))]))
    = true ->
  middleware env request =
    ([ BetterFetch "/api/auth/get-session" (origin (nextUrl request))
         [("cookie", or_empty (headers_get "cookie" (headers request)))] ],
     inr next).
Proof.
  intros Hpub Hs.
  unfold middleware, fetch_session, bind, emit, ret.
  rewrite Hpub. cbv zeta. rewrite Hs. reflexivity.
Qed.

Lemma authenticated_passes_witness :
  middleware Sample.mw_env
    (Sample.page "/dashboard" [("cookie", "session=alice")]) =
    ([ BetterFetch "/api/auth/get-session" "http://localhost:3000"
         [("cookie", "session=alice")] ],
     inr next).
Proof.
  apply (authenticated_passes Sample.mw_env
           (Sample.page "/dashboard" [("cookie", "session=alice")]));
    reflexivity.
Defined.

(** X22. The middleware redirects nowhere but to [/auth/login] on the
    origin of the request's own URL, with the requested pathname as the
    only query parameter, and only a request for a path that is not
    public whose session lookup yielded nothing. *)
Theorem redirect_only_to_login (env : Env) (request : NextRequest)
  (target : URL) :
  response_of (middleware env request) = redirect target ->
  target = {| origin := origin (url request);
              pathname := "/auth/login";
              searchParams := [("redirect", pathname (nextUrl request))] |} /\
  is_public (pathname (nextUrl request)) = false /\
  truthy
    (data (betterFetch env "/api/auth/get-session" (origin (nextUrl request))
             [("cookie", or_empty (headers_get "cookie" (headers request)))]))
    = false.
Proof.
  unfold middleware, fetch_session, bind, emit, ret, response_of.
  destruct (is_public (pathname (nextUrl request)));
    [intros H; discriminate H|].
  cbv zeta.
  destruct (truthy _); cbn; intros H; [discriminate H|].
  inversion H. repeat split.
Qed.

Lemma redirect_only_to_login_witness :
  is_public "/settings" = false /\
  origin {| origin := "http://localhost:3000"; pathname := "/auth/login";
            searchParams := [("redirect", "/settings")] |}
    = "http://localhost:3000".
Proof.
  destruct (redirect_only_to_login Sample.mw_env
              (Sample.page "/settings" [])
              {| origin := "http://localhost:3000";
                 pathname := "/auth/login";
                 searchParams := [("redirect", "/settings")] |} eq_refl)
    as (_ & H & _).
  split; [exact H | reflexivity].
Defined.

End MiddlewareMore.
